(** * reverence: [src/blue/fsd.c]

    A shallow embedding of the FileStaticData extension module: the
    [FsdUnsignedIntegerKeyMap] class (a binary-searched table of 12-byte
    records living inside a Python string), its iterator, and the
    [_uint32_from] / [_int32_from] unpacking functions.

    The first part models the C code, function by function and under
    the names of the source.  The second part fixes the vocabulary of
    the specification: the layout of a buffer, the error kinds, the
    projections.  The third part states and proves the properties of
    the specification; the fourth part proves further properties of the
    code, among them those of [_string_from]. *)

From Stdlib Require Import ZArith List Lia Bool String DecimalString Sorted.
From coqutil Require Import Byte Word.LittleEndianList.
From Equations.Prop Require Import Equations Logic.
Import ListNotations.

Local Open Scope Z_scope.
Set Warnings "-register-all".

(** * Part 1: the code *)

(** ** C integers

    [int] and [int32_t] are 32-bit two's complement, [uint32_t] is
    32-bit unsigned.  The widths of [long] and [size_t] depend on the
    data model of the platform, so they are parameters. *)

Record platform := {
  LONG_BIT : Z;   (* width of a C long *)
  SIZE_BIT : Z    (* width of size_t *)
}.

Definition LP64 : platform := {| LONG_BIT := 64; SIZE_BIT := 64 |}.
Definition LLP64 : platform := {| LONG_BIT := 32; SIZE_BIT := 64 |}.
Definition ILP32 : platform := {| LONG_BIT := 32; SIZE_BIT := 32 |}.

(** Conversion to an unsigned type of [w] bits. *)
Definition to_unsigned (w z : Z) : Z := z mod 2 ^ w.

(** Conversion to a signed type of [w] bits (wrap-around). *)
Definition to_signed (w z : Z) : Z := (z + 2 ^ (w - 1)) mod 2 ^ w - 2 ^ (w - 1).

Definition to_uint32 : Z -> Z := to_unsigned 32.
Definition to_int32 : Z -> Z := to_signed 32.
Definition to_int : Z -> Z := to_signed 32.

Definition fits_signed (w z : Z) : bool :=
  (- 2 ^ (w - 1) <=? z) && (z <? 2 ^ (w - 1)).

(** What [%d] prints for an [int]. *)
Definition fmt_d (z : Z) : string := NilZero.string_of_int (Z.to_int z).

(** ** Memory

    A pointer into a Python string is a byte position relative to the
    first byte of the string.  Every load is guarded: a load that is not
    wholly inside the string is reported as [OutOfBounds] with the
    position it was attempted at, instead of returning a value. *)

Inductive run (A : Type) : Type :=
| Returns (a : A)
| OutOfBounds (p : Z).
Arguments Returns {A} a.
Arguments OutOfBounds {A} p.

Definition bind {A B} (m : run A) (k : A -> run B) : run B :=
  match m with
  | Returns a => k a
  | OutOfBounds p => OutOfBounds p
  end.

Notation "x <- m ;; k" := (bind m (fun x => k))
  (at level 61, m at next level, right associativity).

Definition load_bytes (s : list byte) (p : Z) (n : nat) : option (list byte) :=
  if (0 <=? p) && (p + Z.of_nat n <=? Z.of_nat (List.length s))
  then Some (firstn n (skipn (Z.to_nat p) s))
  else None.

(** [*(uint32_t * )&s[p]] on a little-endian machine. *)
Definition load_uint32 (s : list byte) (p : Z) : run Z :=
  match load_bytes s p 4 with
  | Some bs => Returns (le_combine bs)
  | None => OutOfBounds p
  end.

(** [*(int32_t * )&s[p]] on a little-endian machine. *)
Definition load_int32 (s : list byte) (p : Z) : run Z :=
  match load_bytes s p 4 with
  | Some bs => Returns (to_int32 (le_combine bs))
  | None => OutOfBounds p
  end.

(** ** Python objects, exceptions and call results *)

Inductive PyObject : Type :=
| PyInteger (z : Z)                 (* an int or a long *)
| PyNone
| PyString (s : list byte)
| PyTuple (items : list PyObject).

Inductive PyExc : Type :=
| PyExc_ValueError (msg : string)
| PyExc_KeyError (msg : string)
| PyExc_RuntimeError (msg : string)
| PyExc_OverflowError (msg : string).

(** What a C API function leaves behind: the returned pointer ([None] is
    [NULL]) and the error indicator of the thread. *)
Record reply := {
  ret : option PyObject;
  err : option PyExc
}.

Definition returns (v : PyObject) : reply := {| ret := Some v; err := None |}.
Definition raises (e : PyExc) : reply := {| ret := None; err := Some e |}.

(** A [NULL] return without an exception ends the iteration. *)
Definition exhausted : reply := {| ret := None; err := None |}.

(** [PyInt_Check(o) || PyLong_Check(o)]. *)
Definition is_integer (o : PyObject) : bool :=
  match o with
  | PyInteger _ => true
  | _ => false
  end.

(** [PyInt_AsLong] on an int or a long: the value, or [-1] with
    [OverflowError] set when it does not fit a C long. *)
Definition PyInt_AsLong (P : platform) (z : Z) : Z * option PyExc :=
  if fits_signed (LONG_BIT P) z
  then (z, None)
  else (-1, Some (PyExc_OverflowError "Python int too large to convert to C long")).

(** ** FsdUnsignedIntegerKeyMap *)

(** Modelled from the spec: the header [fsd.h] that declares the three
    structs is not part of the sources.  A record is 12 bytes: [key],
    [value1] and [value2], each an unsigned 32-bit integer, at the byte
    offsets 0, 4 and 8 (the data model of the specification, and the
    element size 12 that [_internal_get] passes to [bsearch]). *)
Record keymap_entry := {
  key : Z;
  value1 : Z;
  value2 : Z
}.

(** Modelled from the spec: the fields of the table, as [fsd.c] uses
    them.  [km_data] points into the string [km_ref]; it is kept as the
    position of the first record in that string. *)
Record PyKeyMapObject := {
  km_ref : option (list byte);   (* the string kept alive, [None] is NULL *)
  km_data : Z;
  km_length : Z                  (* a C int *)
}.

(** Modelled from the spec: the fields of the iterator, as [fsd.c] uses
    them.  The iterator points to its table; no call modelled here
    changes a table that an iterator points to, so the iterator carries
    the table's value. *)
Record PyKeyMapIteratorObject := {
  kmi_keymap : PyKeyMapObject;
  kmi_mode : Z;                  (* a C int *)
  kmi_index : Z                  (* a C int *)
}.

(** Field loads through a [keymap_entry * ] at position [entry]. *)
Definition bytes_of (self : PyKeyMapObject) : list byte :=
  match km_ref self with
  | Some s => s
  | None => []
  end.

Definition entry_key (self : PyKeyMapObject) (entry : Z) : run Z :=
  load_uint32 (bytes_of self) entry.
Definition entry_value1 (self : PyKeyMapObject) (entry : Z) : run Z :=
  load_uint32 (bytes_of self) (entry + 4).
Definition entry_value2 (self : PyKeyMapObject) (entry : Z) : run Z :=
  load_uint32 (bytes_of self) (entry + 8).

(** [tp_alloc] zero-fills the object. *)
Definition keymap_new : PyKeyMapObject :=
  {| km_ref := None; km_data := 0; km_length := 0 |}.

(** [keymap_initialize], after [PyArg_ParseTuple] has delivered the
    string [pydata] and the C int [offset].  Returns the table as the
    call leaves it and the reply. *)
Definition keymap_initialize (self : PyKeyMapObject) (pydata : list byte) (offset : Z)
  : run (PyKeyMapObject * reply) :=
  let size := Z.of_nat (List.length pydata) in
  if offset >? size - 4 then
    Returns (self, raises (PyExc_ValueError "Initialize requires a buffer of at least 4 bytes"))
  else
    length <- load_int32 pydata offset ;;
    let data := offset + 4 in
    let size := size - (offset + 4) in
    if size <? length then
      Returns (self, raises (PyExc_ValueError
        ("Not enough data in buffer, expected " ++ fmt_d length ++ " bytes")%string))
    else
      Returns ({| km_ref := Some pydata; km_data := data; km_length := length |},
               returns PyNone).

Definition keymap_obj_length (self : PyKeyMapObject) : Z := km_length self.

(** ** Lookup *)

(** [_keycmp(a, b)]: the difference of two [uint32_t] keys, returned as
    [int].  [a] is always [&k], so the first key is passed by value; the
    second is loaded through the entry pointer [b]. *)
Definition _keycmp (self : PyKeyMapObject) (a_key : Z) (b : Z) : run Z :=
  b_key <- entry_key self b ;;
  Returns (to_int (to_uint32 (a_key - b_key))).

(** [bsearch] belongs to the C library, not to the sources; this is its
    usual loop (the one of the GNU C library): halve the index range
    [l, u) until the comparison function answers 0.  The loop ends
    because the range shrinks at every step. *)
Equations? bsearch_loop (compar : Z -> run Z) (base size l u : Z)
  : run (option Z) by wf (Z.to_nat (u - l)) lt :=
  bsearch_loop compar base size l u with Z_lt_dec l u => {
    | right _ => Returns None
    | left _ =>
        let idx := (l + u) / 2 in
        let p := base + idx * size in
        comparison <- compar p ;;
        if comparison <? 0 then bsearch_loop compar base size l idx
        else if comparison >? 0 then bsearch_loop compar base size (idx + 1) u
        else Returns (Some p)
  }.
Proof.
  all: subst idx; pose proof (Z.div_mod (l + u) 2 ltac:(lia));
    pose proof (Z.mod_pos_bound (l + u) 2 ltac:(lia)); lia.
Qed.

Definition bsearch (compar : Z -> run Z) (base nmemb size : Z) : run (option Z) :=
  bsearch_loop compar base size 0 nmemb.

(** [_internal_get]: [raise] selects what a miss does. *)
Definition _internal_get (P : platform) (self : PyKeyMapObject) (key : PyObject)
  (raise : bool) : run reply :=
  match key with
  | PyInteger z =>
      let '(v, pending) := PyInt_AsLong P z in
      let k := to_uint32 v in
      entry <- bsearch (_keycmp self k) (km_data self)
                 (to_unsigned (SIZE_BIT P) (km_length self)) 12 ;;
      match entry with
      | None =>
          if raise then Returns (raises (PyExc_KeyError (fmt_d (to_int k))))
          else Returns {| ret := Some PyNone; err := pending |}
      | Some entry =>
          value1 <- entry_value1 self entry ;;
          value2 <- entry_value2 self entry ;;
          Returns {| ret := Some (PyTuple [PyInteger value1; PyInteger value2]);
                     err := pending |}
      end
  | _ => Returns (raises (PyExc_ValueError "get called with non-integer key"))
  end.

Definition keymap_get (P : platform) (self : PyKeyMapObject) (key : PyObject) : run reply :=
  _internal_get P self key false.

Definition keymap_mp_subscript (P : platform) (self : PyKeyMapObject) (key : PyObject)
  : run reply :=
  _internal_get P self key true.

(** ** FsdUnsignedIntegerKeyMap iterator *)

(** [_iter]: [PyType_GenericAlloc] zero-fills the iterator, so the
    cursor starts at 0. *)
Definition _iter (keymap : PyKeyMapObject) (mode : Z) : PyKeyMapIteratorObject :=
  {| kmi_keymap := keymap; kmi_mode := mode; kmi_index := 0 |}.

Definition keymapiter_next (self : PyKeyMapIteratorObject)
  : run (PyKeyMapIteratorObject * reply) :=
  let keymap := kmi_keymap self in
  if (kmi_index self <? 0) || (kmi_index self >=? km_length keymap) then
    Returns (self, exhausted)
  else
    let entry := km_data keymap + kmi_index self * 12 in
    let self := {| kmi_keymap := keymap; kmi_mode := kmi_mode self;
                   kmi_index := kmi_index self + 1 |} in
    match kmi_mode self with
    | 0 =>
        key <- entry_key keymap entry ;;
        Returns (self, returns (PyInteger key))
    | 1 =>
        value1 <- entry_value1 keymap entry ;;
        value2 <- entry_value2 keymap entry ;;
        Returns (self, returns (PyTuple [PyInteger value1; PyInteger value2]))
    | 2 =>
        key <- entry_key keymap entry ;;
        value1 <- entry_value1 keymap entry ;;
        value2 <- entry_value2 keymap entry ;;
        Returns (self, returns (PyTuple [PyInteger key;
                                         PyTuple [PyInteger value1; PyInteger value2]]))
    | 3 =>
        value1 <- entry_value1 keymap entry ;;
        Returns (self, returns (PyInteger value1))
    | 4 =>
        key <- entry_key keymap entry ;;
        value1 <- entry_value1 keymap entry ;;
        Returns (self, returns (PyTuple [PyInteger key; PyInteger value1]))
    | mode =>
        Returns (self, raises (PyExc_RuntimeError
          ("Invalid mode for KeyMapIterator: " ++ fmt_d mode)%string))
    end.

Definition keymap_iterkeys (self : PyKeyMapObject) : PyKeyMapIteratorObject := _iter self 0.
Definition keymap_itervalues (self : PyKeyMapObject) : PyKeyMapIteratorObject := _iter self 1.
Definition keymap_iteritems (self : PyKeyMapObject) : PyKeyMapIteratorObject := _iter self 2.

(** [keymap_iterspecial], for an integer [pymode]: the C long is
    narrowed to [int] without any check. *)
Definition keymap_iterspecial (P : platform) (self : PyKeyMapObject) (pymode : Z)
  : PyKeyMapIteratorObject :=
  let mode := to_int (fst (PyInt_AsLong P pymode)) in
  _iter self mode.

(** ** Unpacking functions *)

(** [fsd_uint32_from] and [fsd_int32_from], after [PyArg_ParseTuple]
    has delivered the bytes [s] (whose length is the C int [size]) and
    the C int [offset]. *)
Definition fsd_uint32_from (s : list byte) (offset : Z) : run reply :=
  let size := Z.of_nat (List.length s) in
  if (offset >=? 0) && (offset <=? size - 4) then
    v <- load_uint32 s offset ;;
    Returns (returns (PyInteger v))
  else
    Returns (raises (PyExc_ValueError "_uint32_from requires a buffer of at least 4 bytes")).

Definition fsd_int32_from (s : list byte) (offset : Z) : run reply :=
  let size := Z.of_nat (List.length s) in
  if (offset >=? 0) && (offset <=? size - 4) then
    v <- load_int32 s offset ;;
    Returns (returns (PyInteger v))
  else
    Returns (raises (PyExc_ValueError "_int32_from requires a buffer of at least 4 bytes")).

(** The replies of [_string_from]: those of the other functions, and
    the [SystemError] that only [PyString_FromStringAndSize] raises. *)
Inductive string_reply : Type :=
| Plain (r : reply)
| SystemError (msg : string).

(** [PyString_FromStringAndSize(str, size)] belongs to CPython, not to
    the sources: a negative size is a [SystemError]; size 0 gives the
    shared empty string and reads nothing; otherwise [size] bytes are
    copied from the position [str] of the string [mem]. *)
Definition PyString_FromStringAndSize (mem : list byte) (str size : Z) : run string_reply :=
  if size <? 0 then
    Returns (SystemError "Negative size passed to PyString_FromStringAndSize")
  else if size =? 0 then
    Returns (Plain (returns (PyString [])))
  else
    match load_bytes mem str (Z.to_nat size) with
    | Some bs => Returns (Plain (returns (PyString bs)))
    | None => OutOfBounds str
    end.

(** [fsd_string_from], after [PyArg_ParseTuple] has delivered the bytes
    [s] (whose length is the C int [size]) and the C int [offset].  The
    two subtractions are [int] arithmetic. *)
Definition fsd_string_from (s : list byte) (offset : Z) : run string_reply :=
  let size := Z.of_nat (List.length s) in
  let size := to_int (size - offset) in
  if size <? 4 then
    Returns (Plain (raises (PyExc_ValueError
                              "_int32_from requires a buffer of at least 4 bytes")))
  else
    length <- load_int32 s offset ;;
    let size := to_int (size - 4) in
    if length <=? size then PyString_FromStringAndSize s (offset + 4) length
    else
      Returns (Plain (raises (PyExc_ValueError
                                "_int32_from requires a buffer of at least 4 bytes"))).

(** * Part 2: the vocabulary of the specification *)

(** ** Buffers as their producer lays them out

    These follow the binary layout of the specification, not the code:
    a 4-byte little-endian count, then one 12-byte record per entry. *)

Definition size_of (s : list byte) : Z := Z.of_nat (List.length s).

Definition le32 (z : Z) : list byte := le_split 4 z.

Definition encode_entry (e : keymap_entry) : list byte :=
  le32 (key e) ++ le32 (value1 e) ++ le32 (value2 e).

Definition encode_entries (es : list keymap_entry) : list byte :=
  flat_map encode_entry es.

(** A string holding a table for [es] after [pre], followed by [post]. *)
Definition keymap_string (pre : list byte) (es : list keymap_entry) (post : list byte)
  : list byte :=
  pre ++ le32 (Z.of_nat (List.length es)) ++ encode_entries es ++ post.

(** The fields of a record are unsigned 32-bit integers. *)
Definition entry_ok (e : keymap_entry) : Prop :=
  0 <= key e < 2 ^ 32 /\ 0 <= value1 e < 2 ^ 32 /\ 0 <= value2 e < 2 ^ 32.

(** The keys of a table's records. *)
Definition keys (es : list keymap_entry) : list Z := map key es.

(** Records stored in increasing key order, keys being unique. *)
Definition sorted_by_key (es : list keymap_entry) : Prop :=
  StronglySorted (fun a b => key a < key b) es.


(** The table that [Initialize] builds from [keymap_string pre es post]
    at the offset of the count prefix. *)
Definition table_of (pre : list byte) (es : list keymap_entry) (post : list byte)
  : PyKeyMapObject :=
  {| km_ref := Some (keymap_string pre es post);
     km_data := size_of pre + 4;
     km_length := Z.of_nat (List.length es) |}.

(** The position of record [i] of a table. *)
Definition entry_at (self : PyKeyMapObject) (i : Z) : Z := km_data self + i * 12.

(** Loading the three fields of the record behind an entry pointer. *)
Definition load_entry (self : PyKeyMapObject) (entry : Z) : run keymap_entry :=
  k <- entry_key self entry ;;
  v1 <- entry_value1 self entry ;;
  v2 <- entry_value2 self entry ;;
  Returns {| key := k; value1 := v1; value2 := v2 |}.

(** ** Outcomes and error kinds *)

(** A call that returns normally with a reply satisfying [Q]. *)
Definition answers {A} (r : run A) (Q : A -> Prop) : Prop :=
  exists a, r = Returns a /\ Q a.

(** The error kinds of the specification, as the exceptions of the code. *)
Definition BufferTooShort (r : reply) : Prop :=
  exists msg, r = raises (PyExc_ValueError msg).

Definition msg_not_enough (N : Z) : string :=
  ("Not enough data in buffer, expected " ++ fmt_d N ++ " bytes")%string.

Definition InvalidKeyType (r : reply) : Prop :=
  exists msg, r = raises (PyExc_ValueError msg).

Definition KeyNotFound (k : Z) (r : reply) : Prop :=
  r = raises (PyExc_KeyError (fmt_d k)).

Definition msg_invalid_mode (mode : Z) : string :=
  ("Invalid mode for KeyMapIterator: " ++ fmt_d mode)%string.

Definition InvalidIterationMode (mode : Z) (r : reply) : Prop :=
  r = raises (PyExc_RuntimeError (msg_invalid_mode mode)).

(** ** Iteration and search *)

(** The projection of a record that each iteration mode names. *)
Definition projection (mode : Z) (e : keymap_entry) : PyObject :=
  match mode with
  | 0 => PyInteger (key e)
  | 1 => PyTuple [PyInteger (value1 e); PyInteger (value2 e)]
  | 2 => PyTuple [PyInteger (key e); PyTuple [PyInteger (value1 e); PyInteger (value2 e)]]
  | 3 => PyInteger (value1 e)
  | 4 => PyTuple [PyInteger (key e); PyInteger (value1 e)]
  | _ => PyNone   (* no projection: the mode is not one of the five *)
  end.

(** The iterator after one step. *)
Definition advance (it : PyKeyMapIteratorObject) : PyKeyMapIteratorObject :=
  {| kmi_keymap := kmi_keymap it; kmi_mode := kmi_mode it; kmi_index := kmi_index it + 1 |}.

(** A full iteration, as the consumers of the iterator protocol run it
    ([for], [list(...)]): call [tp_iternext] until it returns [NULL];
    the result is what was yielded and the exception that the last call
    left, if any.  It ends because every call that yields moves the
    cursor towards the record count. *)
Equations? exhaust (it : PyKeyMapIteratorObject)
  : run (list PyObject * option PyExc)
  by wf (Z.to_nat (km_length (kmi_keymap it) - kmi_index it)) lt :=
  exhaust it with inspect (keymapiter_next it) => {
    | @exist (Returns (it', {| ret := Some item; err := _ |})) _ =>
        rest <- exhaust it' ;;
        Returns (item :: fst rest, snd rest)
    | @exist (Returns (_, {| ret := None; err := e |})) _ => Returns ([], e)
    | @exist (OutOfBounds p) _ => OutOfBounds p
  }.
Proof.
  unfold keymapiter_next in e.
  destruct ((kmi_index it <? 0) || (kmi_index it >=? km_length (kmi_keymap it))) eqn:G.
  - discriminate e.
  - apply orb_false_elim in G. destruct G as [G1 G2].
    assert (E : kmi_keymap it' = kmi_keymap it /\ kmi_index it' = kmi_index it + 1).
    { cbv zeta in e. cbn [kmi_mode] in e.
      repeat match type of e with
             | match ?m with _ => _ end = _ => destruct m
             | bind ?m _ = _ => destruct m; cbn [bind] in e
             end;
        try discriminate e; inversion e; subst; cbn; auto. }
    destruct E as [-> ->]. lia.
Qed.

(** The search that both lookups run for the C key [k]. *)
Definition search (P : platform) (self : PyKeyMapObject) (k : Z) : run (option Z) :=
  bsearch (_keycmp self k) (km_data self) (to_unsigned (SIZE_BIT P) (km_length self)) 12.

(** The C key that an integer is looked up as. *)
Definition ckey (P : platform) (z : Z) : Z := to_uint32 (fst (PyInt_AsLong P z)).

(** ** Example tables *)

(** The table of the specification's scenario: records (1, 10, 20) and
    (5, 30, 40). *)
Definition scenario : list keymap_entry :=
  [ {| key := 1; value1 := 10; value2 := 20 |};
    {| key := 5; value1 := 30; value2 := 40 |} ].

(** A sorted table whose keys span more than 2^31. *)
Definition wide : list keymap_entry :=
  [ {| key := 0; value1 := 10; value2 := 20 |};
    {| key := 2147483649; value1 := 30; value2 := 40 |};
    {| key := 2147483650; value1 := 50; value2 := 60 |} ].

(** ** Claims of the specification that the code does not meet *)


(** C6, as stated: an iterator with an unrecognized mode fails with the
    invalid-mode error on [Next()] and leaves its cursor where it was. *)
Definition fails_without_advancing (it : PyKeyMapIteratorObject) : Prop :=
  answers (keymapiter_next it)
          (fun a => fst a = it /\ InvalidIterationMode (kmi_mode it) (snd a)).

(** C8, as stated: the lookup of [key] fails with the invalid-key error
    in both modes. *)
Definition rejected_as_invalid (P : platform) (self : PyKeyMapObject) (key : PyObject)
  : Prop :=
  answers (keymap_get P self key) InvalidKeyType /\
  answers (keymap_mp_subscript P self key) InvalidKeyType.

(** ** Further vocabulary *)

(** A string holding the length-prefixed [payload] after [pre], followed
    by [post]. *)
Definition prefixed_string (pre payload post : list byte) : list byte :=
  pre ++ le32 (Z.of_nat (List.length payload)) ++ payload ++ post.

(** The bytes [p .. p + n - 1] of a string. *)
Definition slice (s : list byte) (p n : Z) : list byte :=
  firstn (Z.to_nat n) (skipn (Z.to_nat p) s).

(** The reading of an unsigned 32-bit value as [int32_t]. *)
Definition as_signed (u : Z) : Z := if u <? 2 ^ 31 then u else u - 2 ^ 32.


(** * Part 3: properties *)

Ltac to_prop :=
  repeat match goal with
         | H : _ && _ = true |- _ => apply andb_prop in H; destruct H
         | H : _ && _ = false |- _ => apply andb_false_iff in H
         | H : _ || _ = true |- _ => apply orb_prop in H
         | H : _ || _ = false |- _ => apply orb_false_elim in H; destruct H
         | H : (_ <=? _) = true |- _ => apply Z.leb_le in H
         | H : (_ <=? _) = false |- _ => apply Z.leb_gt in H
         | H : (_ <? _) = true |- _ => apply Z.ltb_lt in H
         | H : (_ <? _) = false |- _ => apply Z.ltb_ge in H
         | H : (_ >=? _) = true |- _ => rewrite Z.geb_leb in H
         | H : (_ >=? _) = false |- _ => rewrite Z.geb_leb in H
         | H : (_ >? _) = true |- _ => rewrite Z.gtb_ltb in H
         | H : (_ >? _) = false |- _ => rewrite Z.gtb_ltb in H
         end.

(** ** Integer conversions *)

Lemma to_uint32_small z : 0 <= z < 2 ^ 32 -> to_uint32 z = z.
Proof. intros H. apply Z.mod_small. exact H. Qed.

Lemma to_uint32_range z : 0 <= to_uint32 z < 2 ^ 32.
Proof. apply Z.mod_pos_bound. reflexivity. Qed.

Lemma to_int32_small z : - 2 ^ 31 <= z < 2 ^ 31 -> to_int32 z = z.
Proof.
  intros H. unfold to_int32, to_signed.
  change (2 ^ (32 - 1)) with (2 ^ 31).
  rewrite Z.mod_small; change (2 ^ 32) with (2 * 2 ^ 31); lia.
Qed.


Lemma to_int32_mod z : to_int32 (z mod 2 ^ 32) = to_int32 z.
Proof.
  unfold to_int32, to_signed. f_equal.
  rewrite Zplus_mod_idemp_l. reflexivity.
Qed.


Lemma to_int_zero k k' :
  0 <= k < 2 ^ 32 -> 0 <= k' < 2 ^ 32 -> to_int (to_uint32 (k - k')) = 0 -> k = k'.
Proof.
  intros Hk Hk'. unfold to_int, to_uint32, to_unsigned, to_signed.
  change (2 ^ (32 - 1)) with 2147483648. change (2 ^ 32) with 4294967296 in *.
  intros E.
  pose proof (Z.mod_pos_bound (k - k') 4294967296 eq_refl) as B.
  pose proof (Z.div_mod (k - k') 4294967296 ltac:(lia)) as D.
  pose proof (Z.mod_pos_bound ((k - k') mod 4294967296 + 2147483648) 4294967296 eq_refl) as B2.
  pose proof (Z.div_mod ((k - k') mod 4294967296 + 2147483648) 4294967296 ltac:(lia)) as D2.
  lia.
Qed.

(** ** Loads *)

Lemma le_combine_le32 z : le_combine (le32 z) = z mod 2 ^ 32.
Proof. unfold le32. rewrite le_combine_split. reflexivity. Qed.

Lemma length_le32 z : List.length (le32 z) = 4%nat.
Proof. apply length_le_split. Qed.

Lemma le_combine_range4 bs : List.length bs = 4%nat -> 0 <= le_combine bs < 2 ^ 32.
Proof.
  intros H. pose proof (le_combine_bound bs) as B. rewrite H in B. exact B.
Qed.

Lemma load_bytes_length s p n bs : load_bytes s p n = Some bs -> List.length bs = n.
Proof.
  unfold load_bytes.
  destruct ((0 <=? p) && (p + Z.of_nat n <=? Z.of_nat (List.length s))) eqn:G;
    [| discriminate].
  intros [= <-]. apply andb_prop in G. destruct G as [G1 G2].
  apply Z.leb_le in G1, G2. rewrite length_firstn, length_skipn.
  apply Nat.min_l. lia.
Qed.

Lemma load_bytes_in_bounds s p n :
  0 <= p -> p + Z.of_nat n <= size_of s -> exists bs, load_bytes s p n = Some bs.
Proof.
  intros H1 H2. unfold load_bytes, size_of in *.
  replace ((0 <=? p) && (p + Z.of_nat n <=? Z.of_nat (List.length s))) with true.
  - eexists. reflexivity.
  - symmetry. apply andb_true_intro. split; lia.
Qed.

Lemma load_bytes_out_of_bounds s p n :
  p < 0 \/ size_of s < p + Z.of_nat n -> load_bytes s p n = None.
Proof.
  intros H. unfold load_bytes, size_of in *.
  replace ((0 <=? p) && (p + Z.of_nat n <=? Z.of_nat (List.length s))) with false.
  - reflexivity.
  - symmetry. apply andb_false_iff. lia.
Qed.

Lemma load_bytes_app pre bs post :
  load_bytes (pre ++ bs ++ post) (size_of pre) (List.length bs) = Some bs.
Proof.
  unfold load_bytes, size_of.
  replace ((0 <=? Z.of_nat (List.length pre)) &&
           (Z.of_nat (List.length pre) + Z.of_nat (List.length bs) <=?
            Z.of_nat (List.length (pre ++ bs ++ post)))) with true.
  - rewrite Nat2Z.id, skipn_app, Nat.sub_diag, skipn_all, app_nil_l.
    cbn [skipn]. rewrite firstn_app, Nat.sub_diag, firstn_all, firstn_O, app_nil_r.
    reflexivity.
  - symmetry. apply andb_true_intro. rewrite !length_app.
    split; apply Z.leb_le; lia.
Qed.

Lemma load_uint32_app pre z post :
  load_uint32 (pre ++ le32 z ++ post) (size_of pre) = Returns (z mod 2 ^ 32).
Proof.
  unfold load_uint32. rewrite <- (length_le32 z) at 1.
  rewrite load_bytes_app, le_combine_le32. reflexivity.
Qed.

Lemma load_int32_app pre z post :
  load_int32 (pre ++ le32 z ++ post) (size_of pre) = Returns (to_int32 z).
Proof.
  unfold load_int32. rewrite <- (length_le32 z) at 1.
  rewrite load_bytes_app, le_combine_le32, to_int32_mod. reflexivity.
Qed.

Lemma load_uint32_in_bounds s p :
  0 <= p <= size_of s - 4 ->
  exists u, load_uint32 s p = Returns u /\ load_int32 s p = Returns (to_int32 u) /\
            0 <= u < 2 ^ 32.
Proof.
  intros H. destruct (load_bytes_in_bounds s p 4) as [bs E]; try lia.
  unfold load_uint32, load_int32. rewrite E. eexists. repeat split.
  all: apply le_combine_range4, (load_bytes_length _ _ _ _ E).
Qed.

Lemma load_int32_out_of_bounds s p :
  p < 0 \/ size_of s - 4 < p -> load_int32 s p = OutOfBounds p.
Proof.
  intros H. unfold load_int32. rewrite load_bytes_out_of_bounds; [reflexivity | lia].
Qed.

(** ** The unpacking functions *)

Lemma fsd_uint32_from_in_range s offset :
  0 <= offset <= size_of s - 4 ->
  exists u, 0 <= u < 2 ^ 32 /\
    fsd_uint32_from s offset = Returns (returns (PyInteger u)) /\
    fsd_int32_from s offset = Returns (returns (PyInteger (to_int32 u))).
Proof.
  intros H. destruct (load_uint32_in_bounds s offset H) as (u & E1 & E2 & B).
  exists u. unfold fsd_uint32_from, fsd_int32_from. fold (size_of s).
  replace ((offset >=? 0) && (offset <=? size_of s - 4)) with true.
  - rewrite E1, E2. auto.
  - symmetry. apply andb_true_intro. rewrite Z.geb_leb.
    split; apply Z.leb_le; lia.
Qed.

Lemma fsd_from_out_of_range s offset :
  ~ (0 <= offset <= size_of s - 4) ->
  fsd_uint32_from s offset =
    Returns (raises (PyExc_ValueError "_uint32_from requires a buffer of at least 4 bytes")) /\
  fsd_int32_from s offset =
    Returns (raises (PyExc_ValueError "_int32_from requires a buffer of at least 4 bytes")).
Proof.
  intros H. unfold fsd_uint32_from, fsd_int32_from. fold (size_of s).
  destruct ((offset >=? 0) && (offset <=? size_of s - 4)) eqn:G; [| auto].
  to_prop. lia.
Qed.

(** C7. [_uint32_from] and [_int32_from] fail with the buffer-too-short
    error exactly when [0 <= offset <= len(buffer) - 4] does not hold, in
    particular at [offset = len(buffer) - 3]; and when the four bytes at
    a valid offset are the little-endian encoding of [v], they return
    [v] (unsigned reading for [0 <= v < 2^32], signed reading for
    [-2^31 <= v < 2^31]). *)
Theorem fsd_from_bounds_and_roundtrip (s : list byte) (offset : Z) :
  (answers (fsd_uint32_from s offset) BufferTooShort <->
   ~ (0 <= offset <= size_of s - 4)) /\
  (answers (fsd_int32_from s offset) BufferTooShort <->
   ~ (0 <= offset <= size_of s - 4)) /\
  answers (fsd_uint32_from s (size_of s - 3)) BufferTooShort /\
  answers (fsd_int32_from s (size_of s - 3)) BufferTooShort /\
  (forall pre post v,
      s = pre ++ le32 v ++ post -> offset = size_of pre ->
      (0 <= v < 2 ^ 32 ->
       fsd_uint32_from s offset = Returns (returns (PyInteger v))) /\
      (- 2 ^ 31 <= v < 2 ^ 31 ->
       fsd_int32_from s offset = Returns (returns (PyInteger v)))).
Proof.
  assert (Bad : forall o, ~ (0 <= o <= size_of s - 4) ->
            answers (fsd_uint32_from s o) BufferTooShort /\
            answers (fsd_int32_from s o) BufferTooShort).
  { intros o H. destruct (fsd_from_out_of_range s o H) as [E1 E2].
    split; eexists; (split; [eassumption | eexists; reflexivity]). }
  assert (Good : forall o, 0 <= o <= size_of s - 4 ->
            ~ answers (fsd_uint32_from s o) BufferTooShort /\
            ~ answers (fsd_int32_from s o) BufferTooShort).
  { intros o H. destruct (fsd_uint32_from_in_range s o H) as (u & _ & E1 & E2).
    split; intros (a & E & msg & ->); rewrite E in *; discriminate. }
  repeat split.
  - intros A I. apply (proj1 (Good offset I)). exact A.
  - intros N. apply (Bad offset N).
  - intros A I. apply (proj2 (Good offset I)). exact A.
  - intros N. apply (Bad offset N).
  - apply Bad. lia.
  - apply Bad. lia.
  - intros B. subst s offset. unfold fsd_uint32_from.
    replace ((size_of pre >=? 0) && _) with true.
    + rewrite load_uint32_app. cbn [bind]. rewrite Z.mod_small by exact B. reflexivity.
    + symmetry. apply andb_true_intro. rewrite Z.geb_leb.
      split; apply Z.leb_le; unfold size_of; rewrite ?length_app, ?length_le32; lia.
  - intros B. subst s offset. unfold fsd_int32_from.
    replace ((size_of pre >=? 0) && _) with true.
    + rewrite load_int32_app. cbn [bind]. rewrite to_int32_small by exact B. reflexivity.
    + symmetry. apply andb_true_intro. rewrite Z.geb_leb.
      split; apply Z.leb_le; unfold size_of; rewrite ?length_app, ?length_le32; lia.
Qed.

Lemma fsd_from_bounds_and_roundtrip_witness :
  fsd_uint32_from (le32 4000000000) 0 = Returns (returns (PyInteger 4000000000)) /\
  fsd_int32_from (le32 (-5)) 0 = Returns (returns (PyInteger (-5))).
Proof.
  split.
  - apply (proj1 (proj2 (proj2 (proj2 (proj2
      (fsd_from_bounds_and_roundtrip (le32 4000000000) 0))))
      [] [] 4000000000 eq_refl eq_refl)).
    lia.
  - apply (proj2 (proj2 (proj2 (proj2 (proj2
      (fsd_from_bounds_and_roundtrip (le32 (-5)) 0))))
      [] [] (-5) eq_refl eq_refl)).
    lia.
Defined.

(** ** Initialize *)

Lemma keymap_initialize_no_room self pydata offset :
  size_of pydata - 4 < offset ->
  keymap_initialize self pydata offset =
    Returns (self, raises (PyExc_ValueError
                             "Initialize requires a buffer of at least 4 bytes")).
Proof.
  intros H. unfold keymap_initialize. fold (size_of pydata).
  replace (offset >? size_of pydata - 4) with true; [reflexivity |].
  symmetry. rewrite Z.gtb_ltb. apply Z.ltb_lt. exact H.
Qed.

Lemma keymap_initialize_read self pydata offset :
  offset <= size_of pydata - 4 ->
  keymap_initialize self pydata offset =
    (length <- load_int32 pydata offset ;;
     if size_of pydata - (offset + 4) <? length then
       Returns (self, raises (PyExc_ValueError (msg_not_enough length)))
     else
       Returns ({| km_ref := Some pydata; km_data := offset + 4; km_length := length |},
                returns PyNone)).
Proof.
  intros H. unfold keymap_initialize. fold (size_of pydata).
  replace (offset >? size_of pydata - 4) with false; [reflexivity |].
  symmetry. rewrite Z.gtb_ltb. apply Z.ltb_ge. exact H.
Qed.



(** C9. A negative offset is not rejected: whenever [offset] is negative
    and the guard [offset > len(buffer) - 4] does not fire, [Initialize]
    loads the count from the position [offset], before the first byte of
    the buffer, instead of failing with the buffer-too-short error. *)
Theorem keymap_initialize_negative_offset
  (self : PyKeyMapObject) (pydata : list byte) (offset : Z) :
  offset < 0 ->
  offset <= size_of pydata - 4 ->
  keymap_initialize self pydata offset = OutOfBounds offset /\
  ~ answers (keymap_initialize self pydata offset) (fun a => BufferTooShort (snd a)).
Proof.
  intros Neg Guard.
  assert (E : keymap_initialize self pydata offset = OutOfBounds offset).
  { rewrite (keymap_initialize_read self pydata offset Guard).
    rewrite load_int32_out_of_bounds by lia. reflexivity. }
  split; [exact E |].
  intros (a & E' & _). rewrite E in E'. discriminate E'.
Qed.

Lemma keymap_initialize_negative_offset_witness :
  keymap_initialize keymap_new (le32 1 ++ le32 2) (-1) = OutOfBounds (-1) /\
  keymap_initialize keymap_new [] (-4) = OutOfBounds (-4).
Proof.
  split.
  - apply (keymap_initialize_negative_offset keymap_new (le32 1 ++ le32 2) (-1));
      vm_compute; congruence.
  - apply (keymap_initialize_negative_offset keymap_new [] (-4));
      vm_compute; congruence.
Defined.

(** ** Unfolding the two loops *)

Lemma exhaust_unfolding it :
  exhaust it =
  match keymapiter_next it with
  | Returns (it', {| ret := Some item; err := _ |}) =>
      rest <- exhaust it' ;; Returns (item :: fst rest, snd rest)
  | Returns (_, {| ret := None; err := e |}) => Returns ([], e)
  | OutOfBounds p => OutOfBounds p
  end.
Proof.
  rewrite exhaust_equation_1. unfold inspect.
  assert (G : forall r (e : keymapiter_next it = r),
    exhaust_unfold_clause_1 it (exist _ r e) =
    match r with
    | Returns (it', {| ret := Some item; err := _ |}) =>
      rest <- exhaust it' ;; Returns (item :: fst rest, snd rest)
    | Returns (_, {| ret := None; err := e |}) => Returns ([], e)
    | OutOfBounds p => OutOfBounds p
    end).
  { intros r e. destruct r as [[it' [[item|] e']]|p]; reflexivity. }
  apply G.
Qed.

Lemma bsearch_loop_unfolding compar base size l u :
  bsearch_loop compar base size l u =
  if l <? u then
    let idx := (l + u) / 2 in
    let p := base + idx * size in
    comparison <- compar p ;;
    if comparison <? 0 then bsearch_loop compar base size l idx
    else if comparison >? 0 then bsearch_loop compar base size (idx + 1) u
    else Returns (Some p)
  else Returns None.
Proof.
  rewrite bsearch_loop_equation_1.
  destruct (Z_lt_dec l u) as [H | H]; cbn.
  - apply Z.ltb_lt in H. rewrite H. reflexivity.
  - apply Z.nlt_ge, Z.ltb_ge in H. rewrite H. reflexivity.
Qed.

(** ** Tables initialized from a well-formed string *)

Lemma nth_error_middle {A} (l1 l2 : list A) (a : A) :
  nth_error (l1 ++ a :: l2) (List.length l1) = Some a.
Proof. rewrite nth_error_app2, Nat.sub_diag by lia. reflexivity. Qed.

Lemma nth_error_Z {A} (l : list A) (idx : Z) :
  0 <= idx < Z.of_nat (List.length l) ->
  exists a, nth_error l (Z.to_nat idx) = Some a.
Proof.
  intros H. destruct (nth_error l (Z.to_nat idx)) eqn:E; [eexists; reflexivity |].
  apply nth_error_None in E. lia.
Qed.

Lemma Forall_nth_error {A} (Q : A -> Prop) l i a :
  Forall Q l -> nth_error l i = Some a -> Q a.
Proof.
  intros F N. rewrite Forall_forall in F. apply F. eapply nth_error_In. exact N.
Qed.

Lemma length_encode_entry e : List.length (encode_entry e) = 12%nat.
Proof. unfold encode_entry. rewrite !length_app, !length_le32. reflexivity. Qed.

Lemma size_of_app a b : size_of (a ++ b) = size_of a + size_of b.
Proof. unfold size_of. rewrite length_app. lia. Qed.

Lemma size_of_le32 z : size_of (le32 z) = 4.
Proof. unfold size_of. rewrite length_le32. reflexivity. Qed.

Lemma size_of_encode_entries es : size_of (encode_entries es) = 12 * Z.of_nat (List.length es).
Proof.
  induction es as [| e es IH].
  - reflexivity.
  - change (encode_entries (e :: es)) with (encode_entry e ++ encode_entries es).
    rewrite size_of_app, IH. unfold size_of at 1. rewrite length_encode_entry.
    cbn [List.length]. lia.
Qed.

Lemma encode_entries_app es1 es2 :
  encode_entries (es1 ++ es2) = encode_entries es1 ++ encode_entries es2.
Proof. apply flat_map_app. Qed.


Lemma load_entry_table pre es post i e :
  nth_error es i = Some e ->
  entry_ok e ->
  let self := table_of pre es post in
  let entry := entry_at self (Z.of_nat i) in
  entry_key self entry = Returns (key e) /\
  entry_value1 self entry = Returns (value1 e) /\
  entry_value2 self entry = Returns (value2 e).
Proof.
  intros Nth (Hk & Hv1 & Hv2). cbv zeta.
  destruct (nth_error_split _ _ Nth) as (es1 & es2 & -> & Len).
  set (n := List.length (es1 ++ e :: es2)).
  unfold entry_key, entry_value1, entry_value2, entry_at, table_of, bytes_of.
  cbn [km_ref km_data]. unfold keymap_string. fold n.
  rewrite encode_entries_app.
  change (encode_entries (e :: es2)) with (encode_entry e ++ encode_entries es2).
  unfold encode_entry.
  set (head := pre ++ le32 (Z.of_nat n) ++ encode_entries es1).
  assert (Hd : size_of head = size_of pre + 4 + Z.of_nat i * 12).
  { unfold head. rewrite !size_of_app, size_of_le32, size_of_encode_entries, Len. lia. }
  repeat split.
  - replace (pre ++ le32 (Z.of_nat n) ++ (encode_entries es1 ++
              (le32 (key e) ++ le32 (value1 e) ++ le32 (value2 e)) ++ encode_entries es2) ++ post)
      with (head ++ le32 (key e) ++
            (le32 (value1 e) ++ le32 (value2 e) ++ encode_entries es2 ++ post))
      by (unfold head; rewrite <- !app_assoc; reflexivity).
    rewrite <- Hd, load_uint32_app, Z.mod_small by exact Hk. reflexivity.
  - replace (pre ++ le32 (Z.of_nat n) ++ (encode_entries es1 ++
              (le32 (key e) ++ le32 (value1 e) ++ le32 (value2 e)) ++ encode_entries es2) ++ post)
      with ((head ++ le32 (key e)) ++ le32 (value1 e) ++
            (le32 (value2 e) ++ encode_entries es2 ++ post))
      by (unfold head; rewrite <- !app_assoc; reflexivity).
    replace (size_of pre + 4 + Z.of_nat i * 12 + 4) with (size_of (head ++ le32 (key e)))
      by (rewrite size_of_app, size_of_le32; lia).
    rewrite load_uint32_app, Z.mod_small by exact Hv1. reflexivity.
  - replace (pre ++ le32 (Z.of_nat n) ++ (encode_entries es1 ++
              (le32 (key e) ++ le32 (value1 e) ++ le32 (value2 e)) ++ encode_entries es2) ++ post)
      with ((head ++ le32 (key e) ++ le32 (value1 e)) ++ le32 (value2 e) ++
            (encode_entries es2 ++ post))
      by (unfold head; rewrite <- !app_assoc; reflexivity).
    replace (size_of pre + 4 + Z.of_nat i * 12 + 8)
      with (size_of (head ++ le32 (key e) ++ le32 (value1 e)))
      by (rewrite !size_of_app, !size_of_le32; lia).
    rewrite load_uint32_app, Z.mod_small by exact Hv2. reflexivity.
Qed.

Lemma load_entry_table_full pre es post i e :
  nth_error es i = Some e ->
  entry_ok e ->
  load_entry (table_of pre es post) (entry_at (table_of pre es post) (Z.of_nat i)) =
    Returns e.
Proof.
  intros Nth Ok. destruct (load_entry_table pre es post i e Nth Ok) as (E1 & E2 & E3).
  unfold load_entry. rewrite E1, E2, E3. cbn [bind]. destruct e; reflexivity.
Qed.

Lemma _keycmp_table pre es post k i e :
  nth_error es i = Some e ->
  entry_ok e ->
  _keycmp (table_of pre es post) k (km_data (table_of pre es post) + Z.of_nat i * 12) =
    Returns (to_int (to_uint32 (k - key e))).
Proof.
  intros Nth Ok. unfold _keycmp.
  destruct (load_entry_table pre es post i e Nth Ok) as (E & _ & _).
  unfold entry_at in E. rewrite E. reflexivity.
Qed.

Lemma scenario_ok : Forall entry_ok scenario.
Proof. repeat constructor; cbn; lia. Qed.

(** ** The iterator *)

Lemma keymapiter_next_exhausted it :
  kmi_index it < 0 \/ km_length (kmi_keymap it) <= kmi_index it ->
  keymapiter_next it = Returns (it, exhausted).
Proof.
  intros H. unfold keymapiter_next.
  replace ((kmi_index it <? 0) || _) with true; [reflexivity |].
  symmetry. apply orb_true_iff. rewrite Z.geb_leb, Z.ltb_lt, Z.leb_le. exact H.
Qed.

Lemma keymapiter_next_in_range it e :
  0 <= kmi_index it < km_length (kmi_keymap it) ->
  load_entry (kmi_keymap it) (entry_at (kmi_keymap it) (kmi_index it)) = Returns e ->
  0 <= kmi_mode it <= 4 ->
  keymapiter_next it = Returns (advance it, returns (projection (kmi_mode it) e)).
Proof.
  intros H L M. destruct it as [keymap mode index]. cbn [kmi_keymap kmi_mode kmi_index] in *.
  unfold keymapiter_next, advance. cbn [kmi_keymap kmi_mode kmi_index].
  replace ((index <? 0) || _) with false
    by (symmetry; apply orb_false_iff; rewrite Z.geb_leb, Z.ltb_ge, Z.leb_gt; lia).
  unfold load_entry, entry_at in L. cbv zeta.
  destruct (entry_key keymap (km_data keymap + index * 12)) as [k |]; [| discriminate L].
  destruct (entry_value1 keymap (km_data keymap + index * 12)) as [v1 |]; [| discriminate L].
  destruct (entry_value2 keymap (km_data keymap + index * 12)) as [v2 |]; [| discriminate L].
  cbn [bind] in L. injection L as <-.
  assert (C : mode = 0 \/ mode = 1 \/ mode = 2 \/ mode = 3 \/ mode = 4) by lia.
  destruct C as [-> | [-> | [-> | [-> | ->]]]]; reflexivity.
Qed.

Lemma keymapiter_next_invalid it :
  0 <= kmi_index it < km_length (kmi_keymap it) ->
  ~ (0 <= kmi_mode it <= 4) ->
  keymapiter_next it =
    Returns (advance it, raises (PyExc_RuntimeError (msg_invalid_mode (kmi_mode it)))).
Proof.
  intros H M. destruct it as [keymap mode index]. cbn [kmi_keymap kmi_mode kmi_index] in *.
  unfold keymapiter_next, advance. cbn [kmi_keymap kmi_mode kmi_index].
  replace ((index <? 0) || _) with false
    by (symmetry; apply orb_false_iff; rewrite Z.geb_leb, Z.ltb_ge, Z.leb_gt; lia).
  cbv zeta. cbn [kmi_mode].
  destruct mode as [| p | p]; [lia | | reflexivity].
  destruct p as [[p | p |] | [[p | p |] | [p | p |] |] |]; first [reflexivity | lia].
Qed.

Lemma exhaust_table_from pre post mode es2 :
  0 <= mode <= 4 ->
  forall es1,
    Forall entry_ok (es1 ++ es2) ->
    exhaust {| kmi_keymap := table_of pre (es1 ++ es2) post;
               kmi_mode := mode;
               kmi_index := Z.of_nat (List.length es1) |} =
      Returns (map (projection mode) es2, None).
Proof.
  intros M. induction es2 as [| e es2 IH]; intros es1 Ok.
  - rewrite exhaust_unfolding, keymapiter_next_exhausted; [reflexivity |].
    right. cbn. rewrite app_nil_r. lia.
  - rewrite exhaust_unfolding.
    rewrite (keymapiter_next_in_range _ e); cbn [kmi_keymap kmi_mode kmi_index].
    + unfold returns, advance. cbn [kmi_keymap kmi_mode kmi_index].
      specialize (IH (es1 ++ [e])). rewrite <- app_assoc in IH. cbn [app] in IH.
      replace (Z.of_nat (List.length es1) + 1) with (Z.of_nat (List.length (es1 ++ [e])))
        by (rewrite length_app; cbn; lia).
      rewrite (IH Ok). reflexivity.
    + cbn [km_length table_of]. rewrite length_app. cbn [List.length]. lia.
    + apply load_entry_table_full; [apply nth_error_middle |].
      rewrite Forall_forall in Ok. apply Ok. apply in_or_app. right. left. reflexivity.
    + exact M.
Qed.

Lemma exhaust_table pre es post mode :
  0 <= mode <= 4 ->
  Forall entry_ok es ->
  exhaust (_iter (table_of pre es post) mode) = Returns (map (projection mode) es, None).
Proof.
  intros M Ok. exact (exhaust_table_from pre post mode es M [] Ok).
Qed.

(** C5. [Next()] signals exhaustion when the cursor is negative or has
    reached the record count; otherwise it reads the record at the
    cursor, moves the cursor by exactly one and returns the projection
    the mode selects; so a full iteration over a table yields the
    projections of its records in buffer order. *)
Theorem keymapiter_next_projection :
  (forall it,
      kmi_index it < 0 \/ km_length (kmi_keymap it) <= kmi_index it ->
      keymapiter_next it = Returns (it, exhausted)) /\
  (forall it e,
      0 <= kmi_index it < km_length (kmi_keymap it) ->
      load_entry (kmi_keymap it) (entry_at (kmi_keymap it) (kmi_index it)) = Returns e ->
      0 <= kmi_mode it <= 4 ->
      exists it',
        keymapiter_next it = Returns (it', returns (projection (kmi_mode it) e)) /\
        kmi_index it' = kmi_index it + 1 /\
        kmi_keymap it' = kmi_keymap it /\ kmi_mode it' = kmi_mode it) /\
  (forall pre es post mode,
      Forall entry_ok es ->
      0 <= mode <= 4 ->
      exhaust (_iter (table_of pre es post) mode) =
        Returns (map (projection mode) es, None)).
Proof.
  split; [exact keymapiter_next_exhausted |].
  split.
  - intros it e H L M. exists (advance it). split.
    + apply keymapiter_next_in_range; assumption.
    + repeat split.
  - intros pre es post mode Ok M. apply exhaust_table; assumption.
Qed.

Lemma keymapiter_next_projection_witness :
  exhaust (keymap_iterkeys (table_of [] scenario [])) =
    Returns ([PyInteger 1; PyInteger 5], None) /\
  exhaust (keymap_itervalues (table_of [] scenario [])) =
    Returns ([PyTuple [PyInteger 10; PyInteger 20]; PyTuple [PyInteger 30; PyInteger 40]],
             None) /\
  keymapiter_next (advance (advance (keymap_iteritems (table_of [] scenario [])))) =
    Returns (advance (advance (keymap_iteritems (table_of [] scenario []))), exhausted) /\
  exists it',
    keymapiter_next (advance (keymap_iteritems (table_of [] scenario []))) =
      Returns (it', returns (PyTuple [PyInteger 5; PyTuple [PyInteger 30; PyInteger 40]])) /\
    kmi_index it' = 2.
Proof.
  split; [| split; [| split]].
  - apply (proj2 (proj2 keymapiter_next_projection) [] scenario [] 0 scenario_ok).
    lia.
  - apply (proj2 (proj2 keymapiter_next_projection) [] scenario [] 1 scenario_ok).
    lia.
  - apply (proj1 keymapiter_next_projection).
    right. vm_compute. congruence.
  - destruct (proj1 (proj2 keymapiter_next_projection)
                (advance (keymap_iteritems (table_of [] scenario [])))
                {| key := 5; value1 := 30; value2 := 40 |})
      as (it' & E & I & _).
    + vm_compute. split; congruence.
    + vm_compute. reflexivity.
    + vm_compute. split; congruence.
    + exists it'. split; [exact E | exact I].
Defined.

(** C6 fails on the code: over the scenario table the failing call moves
    the cursor, and over an empty table the call does not fail at all,
    it signals exhaustion. *)
Lemma invalid_mode_counterexample :
  ~ fails_without_advancing (keymap_iterspecial LP64 (table_of [] scenario []) 7) /\
  ~ fails_without_advancing (keymap_iterspecial LP64 (table_of [] [] []) 7) /\
  keymapiter_next (keymap_iterspecial LP64 (table_of [] [] []) 7) =
    Returns (keymap_iterspecial LP64 (table_of [] [] []) 7, exhausted).
Proof.
  split; [| split].
  - intros (a & E & Same & _). vm_compute in E. injection E as <-.
    vm_compute in Same. discriminate Same.
  - intros (a & E & _ & Inv). vm_compute in E. injection E as <-.
    vm_compute in Inv. discriminate Inv.
  - vm_compute. reflexivity.
Qed.

(** C6, amended. An iterator built with a mode outside 0..4 (through
    [_iterspecial], for a mode that fits a C int) is built without
    failing, with its cursor at 0; each [Next()] on such an iterator
    whose cursor is inside the table fails with the invalid-mode error
    and moves the cursor by one; once the cursor is outside the table
    [Next()] signals exhaustion. *)
Theorem invalid_mode_fails_lazily
  (P : platform) (self : PyKeyMapObject) (mode : Z) :
  32 <= LONG_BIT P ->
  - 2 ^ 31 <= mode < 2 ^ 31 ->
  ~ (0 <= mode <= 4) ->
  keymap_iterspecial P self mode = _iter self mode /\
  forall it,
    kmi_mode it = mode ->
    (0 <= kmi_index it < km_length (kmi_keymap it) ->
     exists it',
       keymapiter_next it = Returns (it', raises (PyExc_RuntimeError (msg_invalid_mode mode))) /\
       kmi_index it' = kmi_index it + 1 /\
       kmi_keymap it' = kmi_keymap it /\ kmi_mode it' = mode) /\
    (kmi_index it < 0 \/ km_length (kmi_keymap it) <= kmi_index it ->
     keymapiter_next it = Returns (it, exhausted)).
Proof.
  intros Long Int Bad. split.
  - unfold keymap_iterspecial, PyInt_AsLong.
    replace (fits_signed (LONG_BIT P) mode) with true.
    + cbn [fst]. unfold to_int. fold to_int32. rewrite to_int32_small by exact Int.
      reflexivity.
    + symmetry. unfold fits_signed. apply andb_true_intro.
      assert (2 ^ 31 <= 2 ^ (LONG_BIT P - 1)) by (apply Z.pow_le_mono_r; lia).
      split; [apply Z.leb_le | apply Z.ltb_lt]; lia.
  - intros it <-. split.
    + intros H. exists (advance it). split.
      * apply keymapiter_next_invalid; assumption.
      * repeat split.
    + apply keymapiter_next_exhausted.
Qed.

Lemma invalid_mode_fails_lazily_witness :
  keymap_iterspecial LP64 (table_of [] scenario []) 7 = _iter (table_of [] scenario []) 7 /\
  exists it',
    keymapiter_next (_iter (table_of [] scenario []) 7) =
      Returns (it', raises (PyExc_RuntimeError "Invalid mode for KeyMapIterator: 7")) /\
    kmi_index it' = 1.
Proof.
  destruct (invalid_mode_fails_lazily LP64 (table_of [] scenario []) 7)
    as [Built Steps]; [vm_compute; congruence | lia | lia |].
  split; [exact Built |].
  destruct (proj1 (Steps (_iter (table_of [] scenario []) 7) eq_refl))
    as (it' & E & I & _); [vm_compute; split; congruence |].
  exists it'. split; [exact E | exact I].
Defined.

(** ** Length *)




(** ** The search *)

Lemma midpoint_between l u : l < u -> l <= (l + u) / 2 < u.
Proof.
  intros H.
  pose proof (Z.div_mod (l + u) 2 ltac:(lia)).
  pose proof (Z.mod_pos_bound (l + u) 2 ltac:(lia)). lia.
Qed.

(** A hit is an element of the range on which the comparison function
    answers 0. *)
Lemma bsearch_loop_sound compar base size n :
  forall l u p,
    (Z.to_nat (u - l) <= n)%nat ->
    bsearch_loop compar base size l u = Returns (Some p) ->
    exists idx, l <= idx < u /\ p = base + idx * size /\ compar p = Returns 0.
Proof.
  induction n as [| n IH]; intros l u p Fuel; rewrite bsearch_loop_unfolding;
    destruct (l <? u) eqn:G; try discriminate; to_prop; [lia |].
  cbv zeta. pose proof (midpoint_between l u G) as Mid.
  destruct (compar (base + (l + u) / 2 * size)) as [c |] eqn:C; cbn [bind];
    [| discriminate].
  destruct (c <? 0) eqn:Lt; [| destruct (c >? 0) eqn:Gt]; to_prop.
  - intros E. apply IH in E; [| lia]. destruct E as (idx & R & -> & Z0).
    exists idx. repeat split; try lia. exact Z0.
  - intros E. apply IH in E; [| lia]. destruct E as (idx & R & -> & Z0).
    exists idx. repeat split; try lia. exact Z0.
  - intros [= <-]. exists ((l + u) / 2). repeat split; try lia.
    rewrite C. f_equal. lia.
Qed.

(** The search returns, with a hit or a miss, when every element of the
    range can be compared. *)
Lemma bsearch_loop_stays_inside compar base size n :
  forall l u,
    (Z.to_nat (u - l) <= n)%nat ->
    (forall idx, l <= idx < u -> exists c, compar (base + idx * size) = Returns c) ->
    exists r, bsearch_loop compar base size l u = Returns r.
Proof.
  induction n as [| n IH]; intros l u Fuel Rd; rewrite bsearch_loop_unfolding;
    destruct (l <? u) eqn:G; try (eexists; reflexivity); to_prop; [lia |].
  cbv zeta. pose proof (midpoint_between l u G) as Mid.
  destruct (Rd _ Mid) as (c & ->). cbn [bind].
  destruct (c <? 0); [| destruct (c >? 0)].
  - apply IH; [lia |]. intros idx H. apply Rd. lia.
  - apply IH; [lia |]. intros idx H. apply Rd. lia.
  - eexists. reflexivity.
Qed.

Lemma sorted_by_key_nth es :
  sorted_by_key es ->
  forall i j a b,
    nth_error es i = Some a -> nth_error es j = Some b -> (i < j)%nat -> key a < key b.
Proof.
  induction 1 as [| x es S IH F]; intros i j a b Ni Nj Lt.
  - destruct i; discriminate Ni.
  - destruct j as [| j]; [lia |]. destruct i as [| i].
    + injection Ni as <-. cbn in Nj.
      exact (Forall_nth_error _ _ _ _ F Nj).
    + cbn in Ni, Nj. apply (IH i j); [assumption | assumption | lia].
Qed.

Lemma sorted_by_key_unique es i j a b :
  sorted_by_key es ->
  nth_error es i = Some a -> nth_error es j = Some b -> key a = key b -> i = j.
Proof.
  intros S Ni Nj E.
  destruct (Nat.lt_trichotomy i j) as [Lt | [Eq | Gt]]; [| exact Eq |].
  - pose proof (sorted_by_key_nth es S i j a b Ni Nj Lt). lia.
  - pose proof (sorted_by_key_nth es S j i b a Nj Ni Gt). lia.
Qed.

Section SearchInTable.

Variables (pre post : list byte) (es : list keymap_entry).
Hypothesis es_ok : Forall entry_ok es.


(** What the comparison function answers at record [idx]. *)
Lemma probe_table k idx :
  0 <= idx < Z.of_nat (List.length es) ->
  exists e,
    nth_error es (Z.to_nat idx) = Some e /\
    _keycmp (table_of pre es post) k (km_data (table_of pre es post) + idx * 12) = Returns (to_int (to_uint32 (k - key e))).
Proof.
  intros H. destruct (nth_error_Z es idx H) as (e & N).
  exists e. split; [exact N |].
  rewrite <- (_keycmp_table pre es post k _ e N (Forall_nth_error _ _ _ _ es_ok N)).
  rewrite Z2Nat.id by lia. reflexivity.
Qed.

Lemma search_table_returns k l u :
  0 <= l -> u <= Z.of_nat (List.length es) ->
  exists r, bsearch_loop (_keycmp (table_of pre es post) k) (km_data (table_of pre es post)) 12 l u = Returns r.
Proof.
  intros Hl Hu.
  apply (bsearch_loop_stays_inside _ _ _ (Z.to_nat (u - l)) l u (Nat.le_refl _)).
  intros idx H. destruct (probe_table k idx ltac:(lia)) as (e & _ & C).
  eexists. exact C.
Qed.

(** A hit is a record that carries the key. *)
Lemma search_table_hit k l u p :
  0 <= k < 2 ^ 32 ->
  0 <= l -> u <= Z.of_nat (List.length es) ->
  bsearch_loop (_keycmp (table_of pre es post) k) (km_data (table_of pre es post)) 12 l u = Returns (Some p) ->
  exists i e,
    nth_error es i = Some e /\ key e = k /\ p = km_data (table_of pre es post) + Z.of_nat i * 12.
Proof.
  intros Hk Hl Hu E.
  destruct (bsearch_loop_sound _ _ _ _ _ _ _ (Nat.le_refl _) E) as (idx & R & -> & C).
  destruct (probe_table k idx ltac:(lia)) as (e & N & C').
  rewrite C' in C. injection C as C.
  exists (Z.to_nat idx), e. split; [exact N |]. split.
  - symmetry. apply to_int_zero; try assumption.
    apply (Forall_nth_error _ _ _ _ es_ok N).
  - rewrite Z2Nat.id by lia. reflexivity.
Qed.

(** A key that no record carries is missed, whatever the order of the
    records. *)
Lemma search_table_absent k l u :
  0 <= k < 2 ^ 32 ->
  ~ In k (keys es) ->
  0 <= l -> u <= Z.of_nat (List.length es) ->
  bsearch_loop (_keycmp (table_of pre es post) k) (km_data (table_of pre es post)) 12 l u = Returns None.
Proof.
  intros Hk Absent Hl Hu.
  destruct (search_table_returns k l u Hl Hu) as ([p |] & E); [| exact E].
  exfalso. destruct (search_table_hit k l u p Hk Hl Hu E) as (i & e & N & K & _).
  apply Absent. unfold keys. apply in_map_iff. exists e.
  split; [exact K | eapply nth_error_In; exact N].
Qed.

Section Sorted.

Hypothesis es_sorted : sorted_by_key es.


End Sorted.

End SearchInTable.

(** ** Lookup *)

Lemma _internal_get_integer P self z raise :
  _internal_get P self (PyInteger z) raise =
    (entry <- search P self (ckey P z) ;;
     match entry with
     | None =>
         if raise then Returns (raises (PyExc_KeyError (fmt_d (to_int (ckey P z)))))
         else Returns {| ret := Some PyNone; err := snd (PyInt_AsLong P z) |}
     | Some entry =>
         value1 <- entry_value1 self entry ;;
         value2 <- entry_value2 self entry ;;
         Returns {| ret := Some (PyTuple [PyInteger value1; PyInteger value2]);
                    err := snd (PyInt_AsLong P z) |}
     end).
Proof.
  unfold _internal_get, search, ckey. destruct (PyInt_AsLong P z) as [v pending].
  reflexivity.
Qed.

Lemma _internal_get_non_integer P self key raise :
  is_integer key = false ->
  _internal_get P self key raise =
    Returns (raises (PyExc_ValueError "get called with non-integer key")).
Proof. destruct key; intros H; try discriminate H; reflexivity. Qed.

Lemma ckey_fits P z :
  fits_signed (LONG_BIT P) z = true -> 0 <= z < 2 ^ 32 ->
  ckey P z = z /\ snd (PyInt_AsLong P z) = None.
Proof.
  intros F R. unfold ckey, PyInt_AsLong. rewrite F. cbn [fst snd].
  split; [apply to_uint32_small; exact R | reflexivity].
Qed.

Section LookupInTable.

Variable P : platform.
Variables (pre post : list byte) (es : list keymap_entry).
Hypothesis size_bit : 31 <= SIZE_BIT P.
Hypothesis es_small : Z.of_nat (List.length es) < 2 ^ 31.
Hypothesis es_ok : Forall entry_ok es.


Lemma search_table k :
  search P (table_of pre es post) k =
    bsearch_loop (_keycmp (table_of pre es post) k) (km_data (table_of pre es post)) 12 0 (Z.of_nat (List.length es)).
Proof.
  unfold search, bsearch, to_unsigned. cbn [km_length table_of].
  rewrite Z.mod_small; [reflexivity |].
  assert (2 ^ 31 <= 2 ^ SIZE_BIT P) by (apply Z.pow_le_mono_r; lia). lia.
Qed.

(** The outcome of a lookup that hits the record at index [i]. *)
Lemma get_hit i e z raise :
  nth_error es i = Some e ->
  fits_signed (LONG_BIT P) z = true -> 0 <= z < 2 ^ 32 ->
  search P (table_of pre es post) z = Returns (Some (km_data (table_of pre es post) + Z.of_nat i * 12)) ->
  _internal_get P (table_of pre es post) (PyInteger z) raise =
    Returns (returns (PyTuple [PyInteger (value1 e); PyInteger (value2 e)])).
Proof.
  intros Ni Fits R S.
  destruct (ckey_fits P z Fits R) as [Ck Pending].
  rewrite _internal_get_integer, Ck, Pending, S. cbn [bind].
  destruct (load_entry_table pre es post i e Ni (Forall_nth_error _ _ _ _ es_ok Ni))
    as (_ & E1 & E2).
  unfold entry_at in E1, E2. rewrite E1, E2. reflexivity.
Qed.


(** For a stored key the lookup returns the pair of its record, or the
    search misses. *)
Lemma get_present e raise :
  sorted_by_key es ->
  In e es ->
  fits_signed (LONG_BIT P) (key e) = true ->
  _internal_get P (table_of pre es post) (PyInteger (key e)) raise =
    Returns (returns (PyTuple [PyInteger (value1 e); PyInteger (value2 e)])) \/
  search P (table_of pre es post) (key e) = Returns None.
Proof.
  intros Sorted Ine Fits.
  destruct (In_nth_error _ _ Ine) as (j & Nj).
  pose proof (Forall_nth_error _ _ _ _ es_ok Nj) as Oke.
  destruct (search_table_returns pre post es es_ok (key e) 0 (Z.of_nat (List.length es))
              (Z.le_refl 0) (Z.le_refl _)) as ([p |] & S).
  - left.
    destruct (search_table_hit pre post es es_ok (key e) 0 _ p (proj1 Oke)
                (Z.le_refl 0) (Z.le_refl _) S) as (i & m & Ni & K & ->).
    assert (i = j) by (apply (sorted_by_key_unique es i j m e); assumption).
    subst i. apply (get_hit j e); [exact Nj | exact Fits | exact (proj1 Oke) |].
    rewrite search_table. exact S.
  - right. rewrite search_table. exact S.
Qed.

(** A key that no record carries is not found, whatever the order of
    the records: the soft lookup returns [None], the strict one raises
    [KeyError] with the key printed by [%d]. *)
Lemma get_absent z :
  0 <= z < 2 ^ 32 ->
  fits_signed (LONG_BIT P) z = true ->
  ~ In z (keys es) ->
  keymap_get P (table_of pre es post) (PyInteger z) = Returns (returns PyNone) /\
  keymap_mp_subscript P (table_of pre es post) (PyInteger z) =
    Returns (raises (PyExc_KeyError (fmt_d (to_int z)))).
Proof.
  intros R Fits Absent.
  destruct (ckey_fits P z Fits R) as [Ck Pending].
  unfold keymap_get, keymap_mp_subscript.
  rewrite !_internal_get_integer, Ck, Pending, search_table.
  rewrite (search_table_absent pre post es es_ok) by (assumption || lia).
  split; reflexivity.
Qed.

Lemma get_absent_small z :
  0 <= z < 2 ^ 31 ->
  fits_signed (LONG_BIT P) z = true ->
  ~ In z (keys es) ->
  keymap_get P (table_of pre es post) (PyInteger z) = Returns (returns PyNone) /\
  answers (keymap_mp_subscript P (table_of pre es post) (PyInteger z)) (KeyNotFound z).
Proof.
  intros R Fits Absent.
  destruct (get_absent z ltac:(lia) Fits Absent) as [E1 E2].
  split; [exact E1 |]. eexists. split; [exact E2 |].
  unfold KeyNotFound, to_int. fold to_int32. rewrite to_int32_small by lia. reflexivity.
Qed.

End LookupInTable.

(** C10 at a failing input.  The key 0 is present in the sorted table
    [wide], with the pair (10, 20), yet neither lookup returns that
    pair: the soft lookup returns the absent sentinel and the strict
    lookup raises [KeyError].  The two lookups share the search, and the
    search misses the stored key through the comparison of [_keycmp],
    the defect of C1. *)
Theorem get_and_subscript_miss_stored_key :
  In {| key := 0; value1 := 10; value2 := 20 |} wide /\
  sorted_by_key wide /\
  keymap_initialize keymap_new (keymap_string [] wide []) 0 =
    Returns (table_of [] wide [], returns PyNone) /\
  search LP64 (table_of [] wide []) 0 = Returns None /\
  keymap_get LP64 (table_of [] wide []) (PyInteger 0) = Returns (returns PyNone) /\
  keymap_mp_subscript LP64 (table_of [] wide []) (PyInteger 0) =
    Returns (raises (PyExc_KeyError "0")) /\
  keymap_get LP64 (table_of [] wide []) (PyInteger 0) <>
    Returns (returns (PyTuple [PyInteger 10; PyInteger 20])) /\
  keymap_mp_subscript LP64 (table_of [] wide []) (PyInteger 0) <>
    Returns (returns (PyTuple [PyInteger 10; PyInteger 20])).
Proof.
  split; [left; reflexivity |].
  split; [repeat constructor; cbn; lia |].
  split; [vm_compute; reflexivity |].
  split; [vm_compute; reflexivity |].
  split; [vm_compute; reflexivity |].
  split; [vm_compute; reflexivity |].
  split; intros E; vm_compute in E; discriminate E.
Qed.

(** C8 fails on the code for integers outside the unsigned 32-bit range:
    -1 is looked up as 4294967295 and 4294967297 as 1. *)
Lemma out_of_range_key_counterexample :
  ~ rejected_as_invalid LP64 (table_of [] scenario []) (PyInteger (-1)) /\
  ~ rejected_as_invalid LP64 (table_of [] scenario []) (PyInteger 4294967297) /\
  keymap_get LP64 (table_of [] scenario []) (PyInteger (-1)) = Returns (returns PyNone) /\
  keymap_get LP64 (table_of [] scenario []) (PyInteger 4294967297) =
    Returns (returns (PyTuple [PyInteger 10; PyInteger 20])) /\
  keymap_mp_subscript LP64 (table_of [] scenario []) (PyInteger 4294967297) =
    Returns (returns (PyTuple [PyInteger 10; PyInteger 20])).
Proof.
  repeat split; try (vm_compute; reflexivity).
  - intros [(a & E & msg & ->) _]. vm_compute in E. discriminate E.
  - intros [(a & E & msg & ->) _]. vm_compute in E. discriminate E.
Qed.

(** C8, amended.  A lookup input that is not an integer fails with the
    invalid-key error in both modes.  An integer is never rejected with
    that error, also outside the unsigned 32-bit range: one that fits a
    C long is looked up as its residue modulo 2^32. *)
Theorem non_integer_key_rejected
  (P : platform) (self : PyKeyMapObject) (key : PyObject) (raise : bool) :
  (is_integer key = false ->
   _internal_get P self key raise =
     Returns (raises (PyExc_ValueError "get called with non-integer key")) /\
   rejected_as_invalid P self key) /\
  (forall z, key = PyInteger z ->
     ~ answers (_internal_get P self key raise) InvalidKeyType /\
     (fits_signed (LONG_BIT P) z = true ->
      ckey P z = z mod 2 ^ 32 /\
      _internal_get P self key raise =
        (entry <- search P self (z mod 2 ^ 32) ;;
         match entry with
         | None =>
             if raise
             then Returns (raises (PyExc_KeyError (fmt_d (to_int (z mod 2 ^ 32)))))
             else Returns (returns PyNone)
         | Some entry =>
             value1 <- entry_value1 self entry ;;
             value2 <- entry_value2 self entry ;;
             Returns (returns (PyTuple [PyInteger value1; PyInteger value2]))
         end) /\
      (forall z',
          fits_signed (LONG_BIT P) z' = true ->
          z' mod 2 ^ 32 = z mod 2 ^ 32 ->
          _internal_get P self (PyInteger z') raise = _internal_get P self key raise))).
Proof.
  assert (Fit : forall y, fits_signed (LONG_BIT P) y = true ->
            ckey P y = y mod 2 ^ 32 /\ snd (PyInt_AsLong P y) = None).
  { intros y F. unfold ckey, PyInt_AsLong. rewrite F. split; reflexivity. }
  split.
  - intros I. split; [apply _internal_get_non_integer; exact I |].
    unfold rejected_as_invalid, keymap_get, keymap_mp_subscript.
    rewrite !_internal_get_non_integer by exact I.
    split; eexists; (split; [reflexivity | eexists; reflexivity]).
  - intros z ->. split.
    + rewrite _internal_get_integer.
      intros (a & E & msg & ->).
      destruct (search P self (ckey P z)) as [[entry |] | p]; cbn [bind] in E.
      * destruct (entry_value1 self entry); cbn [bind] in E; [| discriminate E].
        destruct (entry_value2 self entry); cbn [bind] in E; discriminate E.
      * destruct raise; discriminate E.
      * discriminate E.
    + intros F. destruct (Fit z F) as [Ck Pending].
      split; [exact Ck |]. split.
      * rewrite _internal_get_integer, Ck, Pending. reflexivity.
      * intros z' F' Same. destruct (Fit z' F') as [Ck' Pending'].
        rewrite !_internal_get_integer, Ck, Ck', Pending, Pending', Same. reflexivity.
Qed.

Lemma non_integer_key_rejected_witness :
  keymap_get LP64 (table_of [] scenario []) PyNone =
    Returns (raises (PyExc_ValueError "get called with non-integer key")) /\
  ckey ILP32 (-1) = 4294967295 /\
  keymap_mp_subscript LP64 (table_of [] scenario []) (PyInteger 4294967301) =
    keymap_mp_subscript LP64 (table_of [] scenario []) (PyInteger 5).
Proof.
  split; [| split].
  - apply (proj1 (non_integer_key_rejected LP64 (table_of [] scenario []) PyNone false)).
    reflexivity.
  - apply (proj2 (proj2 (non_integer_key_rejected ILP32 keymap_new (PyInteger (-1)) false)
                   (-1) eq_refl)).
    reflexivity.
  - apply (proj2 (proj2 (non_integer_key_rejected LP64 (table_of [] scenario [])
                           (PyInteger 5) true) 5 eq_refl));
      reflexivity.
Defined.

(** The scenario of the specification, run on the code: the count 2
    followed by the records (1, 10, 20) and (5, 30, 40). *)
Example scenario_behaviour :
  let self := table_of [] scenario [] in
  keymap_initialize keymap_new (keymap_string [] scenario []) 0 =
    Returns (self, returns PyNone) /\
  keymap_obj_length self = 2 /\
  keymap_get LP64 self (PyInteger 1) =
    Returns (returns (PyTuple [PyInteger 10; PyInteger 20])) /\
  keymap_get LP64 self (PyInteger 5) =
    Returns (returns (PyTuple [PyInteger 30; PyInteger 40])) /\
  keymap_get LP64 self (PyInteger 3) = Returns (returns PyNone) /\
  keymap_mp_subscript LP64 self (PyInteger 3) = Returns (raises (PyExc_KeyError "3")) /\
  exhaust (keymap_iterkeys self) = Returns ([PyInteger 1; PyInteger 5], None) /\
  exhaust (keymap_itervalues self) =
    Returns ([PyTuple [PyInteger 10; PyInteger 20]; PyTuple [PyInteger 30; PyInteger 40]],
             None).
Proof. repeat split; vm_compute; reflexivity. Qed.

(** C1 at a failing input.  The string encodes three records sorted by
    key, [Initialize] accepts it, and the key 0 of its first record is
    not found: the difference of two keys that are 2^31 or more apart
    changes sign when [_keycmp] returns it as an [int], so the search
    turns away from the record. *)
Theorem get_misses_stored_key :
  sorted_by_key wide /\
  Forall entry_ok wide /\
  keymap_initialize keymap_new (keymap_string [] wide []) 0 =
    Returns (table_of [] wide [], returns PyNone) /\
  _keycmp (table_of [] wide []) 0 (entry_at (table_of [] wide []) 1) = Returns 2147483647 /\
  keymap_get LP64 (table_of [] wide []) (PyInteger 0) = Returns (returns PyNone) /\
  keymap_get LLP64 (table_of [] wide []) (PyInteger 0) = Returns (returns PyNone) /\
  keymap_get ILP32 (table_of [] wide []) (PyInteger 0) = Returns (returns PyNone) /\
  keymap_mp_subscript LP64 (table_of [] wide []) (PyInteger 0) =
    Returns (raises (PyExc_KeyError "0")).
Proof.
  split; [repeat constructor; cbn; lia |].
  split; [repeat constructor; cbn; lia |].
  repeat split; vm_compute; reflexivity.
Qed.

(** C4 at a failing input.  The key 4000000000 is absent from the
    scenario table; the soft lookup returns the absent sentinel, and the
    strict lookup raises [KeyError], but the key it reports is
    -294967296: the [uint32_t] key is printed with [%d].  (Where a C
    long has 32 bits the key does not even reach the search: the
    overflow of [PyInt_AsLong] is not checked and the key becomes
    4294967295, reported as -1.) *)
Theorem subscript_reports_wrapped_key :
  ~ In 4000000000 (keys scenario) /\
  keymap_get LP64 (table_of [] scenario []) (PyInteger 4000000000) =
    Returns (returns PyNone) /\
  keymap_mp_subscript LP64 (table_of [] scenario []) (PyInteger 4000000000) =
    Returns (raises (PyExc_KeyError "-294967296")) /\
  keymap_mp_subscript LLP64 (table_of [] scenario []) (PyInteger 4000000000) =
    Returns (raises (PyExc_KeyError "-1")) /\
  ~ answers (keymap_mp_subscript LP64 (table_of [] scenario []) (PyInteger 4000000000))
            (KeyNotFound 4000000000).
Proof.
  split; [cbn; lia |].
  split; [vm_compute; reflexivity |].
  split; [vm_compute; reflexivity |].
  split; [vm_compute; reflexivity |].
  intros (a & E & K). vm_compute in E. injection E as <-.
  vm_compute in K. discriminate K.
Qed.


(** * Part 4: further properties of the code *)

(** ** The unpacking functions, continued *)

Lemma to_int_small z : - 2 ^ 31 <= z < 2 ^ 31 -> to_int z = z.
Proof. exact (to_int32_small z). Qed.

Lemma as_signed_to_int32 u : 0 <= u < 2 ^ 32 -> to_int32 u = as_signed u.
Proof.
  intros H. unfold as_signed. destruct (u <? 2 ^ 31) eqn:G; to_prop.
  - apply to_int32_small. lia.
  - unfold to_int32, to_signed. change (2 ^ (32 - 1)) with (2 ^ 31).
    replace (u + 2 ^ 31) with (u - 2 ^ 31 + 1 * 2 ^ 32) by (change (2 ^ 32) with (2 * 2 ^ 31); lia).
    rewrite Z.mod_add by (cbv; discriminate).
    rewrite Z.mod_small; change (2 ^ 32) with (2 * 2 ^ 31) in *; lia.
Qed.

Lemma load_bytes_slice s p n bs :
  load_bytes s p n = Some bs -> bs = slice s p (Z.of_nat n).
Proof.
  unfold load_bytes, slice.
  destruct ((0 <=? p) && (p + Z.of_nat n <=? Z.of_nat (List.length s))); [| discriminate].
  intros [= <-]. rewrite Nat2Z.id. reflexivity.
Qed.

Lemma le32_le_combine bs : List.length bs = 4%nat -> le32 (le_combine bs) = bs.
Proof. intros H. unfold le32. rewrite <- H. apply split_le_combine. Qed.

(** X1. At a valid offset [_uint32_from] and [_int32_from] decode the
    same four bytes: the unsigned result [u] re-encodes to exactly those
    bytes, and the signed result is [u] below 2^31 and [u - 2^32] from
    2^31 on. *)
Theorem fsd_from_same_bytes (s : list byte) (offset : Z) :
  0 <= offset <= size_of s - 4 ->
  exists u,
    0 <= u < 2 ^ 32 /\
    fsd_uint32_from s offset = Returns (returns (PyInteger u)) /\
    fsd_int32_from s offset = Returns (returns (PyInteger (as_signed u))) /\
    slice s offset 4 = le32 u.
Proof.
  intros H.
  destruct (load_bytes_in_bounds s offset 4) as [bs E]; try lia.
  pose proof (load_bytes_length _ _ _ _ E) as L.
  exists (le_combine bs).
  assert (R : 0 <= le_combine bs < 2 ^ 32) by (apply le_combine_range4; exact L).
  unfold fsd_uint32_from, fsd_int32_from, load_uint32, load_int32. fold (size_of s).
  replace ((offset >=? 0) && (offset <=? size_of s - 4)) with true
    by (symmetry; apply andb_true_intro; rewrite Z.geb_leb;
        split; apply Z.leb_le; lia).
  rewrite E. cbn [bind]. rewrite (as_signed_to_int32 _ R).
  repeat split; try lia.
  rewrite (le32_le_combine bs L). symmetry.
  exact (load_bytes_slice _ _ _ _ E).
Qed.

Lemma fsd_from_same_bytes_witness :
  exists u,
    0 <= u < 2 ^ 32 /\
    fsd_uint32_from (le32 7 ++ le32 (-2)) 4 = Returns (returns (PyInteger u)) /\
    fsd_int32_from (le32 7 ++ le32 (-2)) 4 = Returns (returns (PyInteger (as_signed u))) /\
    slice (le32 7 ++ le32 (-2)) 4 4 = le32 u.
Proof.
  apply (fsd_from_same_bytes (le32 7 ++ le32 (-2)) 4).
  vm_compute. split; congruence.
Defined.

Lemma fsd_string_from_no_room s offset :
  to_int (size_of s - offset) < 4 ->
  fsd_string_from s offset =
    Returns (Plain (raises (PyExc_ValueError
                              "_int32_from requires a buffer of at least 4 bytes"))).
Proof.
  intros H. unfold fsd_string_from. fold (size_of s).
  replace (to_int (size_of s - offset) <? 4) with true; [reflexivity |].
  symmetry. apply Z.ltb_lt. exact H.
Qed.

Lemma fsd_string_from_read s offset :
  4 <= size_of s - offset < 2 ^ 31 ->
  fsd_string_from s offset =
    (length <- load_int32 s offset ;;
     if length <=? size_of s - offset - 4
     then PyString_FromStringAndSize s (offset + 4) length
     else Returns (Plain (raises (PyExc_ValueError
                                    "_int32_from requires a buffer of at least 4 bytes")))).
Proof.
  intros H. unfold fsd_string_from. fold (size_of s).
  rewrite (to_int_small (size_of s - offset)) by lia.
  replace (size_of s - offset <? 4) with false by (symmetry; apply Z.ltb_ge; lia).
  rewrite (to_int_small (size_of s - offset - 4)) by lia.
  reflexivity.
Qed.

Lemma PyString_FromStringAndSize_inside mem str size :
  0 <= str -> 0 <= size -> str + size <= size_of mem ->
  PyString_FromStringAndSize mem str size =
    Returns (Plain (returns (PyString (slice mem str size)))).
Proof.
  intros Hs Hn Hb. unfold PyString_FromStringAndSize.
  replace (size <? 0) with false by (symmetry; apply Z.ltb_ge; lia).
  destruct (size =? 0) eqn:Z0.
  - apply Z.eqb_eq in Z0. subst size. reflexivity.
  - destruct (load_bytes_in_bounds mem str (Z.to_nat size)) as [bs E]; try lia.
    rewrite E, (load_bytes_slice _ _ _ _ E), Z2Nat.id by lia. reflexivity.
Qed.

Lemma length_slice s p n :
  0 <= p -> 0 <= n -> p + n <= size_of s -> Z.of_nat (List.length (slice s p n)) = n.
Proof.
  intros Hp Hn Hb. unfold slice, size_of in *.
  rewrite length_firstn, length_skipn, Nat.min_l by lia. lia.
Qed.

(** X2. For a non-negative offset, [_string_from] never leaves the
    buffer.  With fewer than 4 bytes left at [offset] it raises
    [ValueError]; otherwise it reads the length prefix [N] there and
    raises [ValueError] when [N] exceeds the bytes after the prefix,
    [SystemError] when [N] is negative, and else returns exactly the
    [N] bytes that follow the prefix. *)
Theorem fsd_string_from_non_negative_offset (s : list byte) (offset : Z) :
  0 <= offset < 2 ^ 31 ->
  size_of s < 2 ^ 31 ->
  (size_of s - offset < 4 ->
   fsd_string_from s offset =
     Returns (Plain (raises (PyExc_ValueError
                               "_int32_from requires a buffer of at least 4 bytes")))) /\
  (4 <= size_of s - offset ->
   exists N,
     load_int32 s offset = Returns N /\
     (size_of s - offset - 4 < N ->
      fsd_string_from s offset =
        Returns (Plain (raises (PyExc_ValueError
                                  "_int32_from requires a buffer of at least 4 bytes")))) /\
     (N < 0 ->
      fsd_string_from s offset =
        Returns (SystemError "Negative size passed to PyString_FromStringAndSize")) /\
     (0 <= N <= size_of s - offset - 4 ->
      fsd_string_from s offset =
        Returns (Plain (returns (PyString (slice s (offset + 4) N)))) /\
      Z.of_nat (List.length (slice s (offset + 4) N)) = N)).
Proof.
  intros Hoff Hsize.
  assert (Nonneg : 0 <= size_of s) by (unfold size_of; lia).
  split.
  - intros Short. apply fsd_string_from_no_room.
    rewrite to_int_small by lia. exact Short.
  - intros Room.
    destruct (load_uint32_in_bounds s offset ltac:(lia)) as (u & _ & E & _).
    exists (to_int32 u). split; [exact E |].
    rewrite fsd_string_from_read by lia. rewrite E. cbn [bind].
    split; [| split].
    + intros Big.
      replace (to_int32 u <=? size_of s - offset - 4) with false
        by (symmetry; apply Z.leb_gt; lia).
      reflexivity.
    + intros Neg.
      replace (to_int32 u <=? size_of s - offset - 4) with true
        by (symmetry; apply Z.leb_le; lia).
      unfold PyString_FromStringAndSize.
      replace (to_int32 u <? 0) with true by (symmetry; apply Z.ltb_lt; lia).
      reflexivity.
    + intros Fit.
      replace (to_int32 u <=? size_of s - offset - 4) with true
        by (symmetry; apply Z.leb_le; lia).
      split.
      * apply PyString_FromStringAndSize_inside; lia.
      * apply length_slice; lia.
Qed.

Lemma fsd_string_from_non_negative_offset_witness :
  fsd_string_from [Byte.x00; Byte.x01; Byte.x02] 0 =
    Returns (Plain (raises (PyExc_ValueError
                              "_int32_from requires a buffer of at least 4 bytes"))) /\
  exists N,
    load_int32 (le32 (-1) ++ le32 0) 0 = Returns N /\
    (N < 0 ->
     fsd_string_from (le32 (-1) ++ le32 0) 0 =
       Returns (SystemError "Negative size passed to PyString_FromStringAndSize")).
Proof.
  split.
  - apply (proj1 (fsd_string_from_non_negative_offset [Byte.x00; Byte.x01; Byte.x02] 0
                    ltac:(lia) ltac:(vm_compute; reflexivity))).
    vm_compute. reflexivity.
  - destruct (proj2 (fsd_string_from_non_negative_offset (le32 (-1) ++ le32 0) 0
                       ltac:(lia) ltac:(vm_compute; reflexivity)))
      as (N & L & _ & Neg & _).
    + vm_compute. congruence.
    + exists N. split; [exact L | exact Neg].
Defined.

Lemma size_of_nonneg s : 0 <= size_of s.
Proof. unfold size_of. lia. Qed.

(** X3. [_string_from] returns the payload of a length-prefixed string:
    when the four bytes at [offset] encode the length of the bytes that
    follow them, exactly those bytes come back, whatever precedes the
    prefix and follows the payload. *)
Theorem fsd_string_from_roundtrip (pre payload post : list byte) :
  size_of (prefixed_string pre payload post) < 2 ^ 31 ->
  fsd_string_from (prefixed_string pre payload post) (size_of pre) =
    Returns (Plain (returns (PyString payload))).
Proof.
  intros Small.
  pose proof (size_of_nonneg pre) as Hpre.
  pose proof (size_of_nonneg payload) as Hpay.
  pose proof (size_of_nonneg post) as Hpost.
  assert (Sz : size_of (prefixed_string pre payload post) =
               size_of pre + 4 + size_of payload + size_of post).
  { unfold prefixed_string. rewrite !size_of_app, size_of_le32. lia. }
  rewrite fsd_string_from_read by lia.
  unfold prefixed_string at 1. rewrite load_int32_app. cbn [bind].
  rewrite to_int32_small by (unfold size_of in *; lia).
  replace (Z.of_nat (List.length payload) <=? _) with true
    by (symmetry; apply Z.leb_le; unfold size_of in *; lia).
  unfold PyString_FromStringAndSize.
  replace (Z.of_nat (List.length payload) <? 0) with false
    by (symmetry; apply Z.ltb_ge; lia).
  destruct (Z.of_nat (List.length payload) =? 0) eqn:Z0.
  - apply Z.eqb_eq in Z0. destruct payload; [reflexivity | discriminate Z0].
  - unfold prefixed_string. rewrite Nat2Z.id.
    replace (pre ++ le32 (Z.of_nat (List.length payload)) ++ payload ++ post)
      with ((pre ++ le32 (Z.of_nat (List.length payload))) ++ payload ++ post)
      by (rewrite <- app_assoc; reflexivity).
    replace (size_of pre + 4)
      with (size_of (pre ++ le32 (Z.of_nat (List.length payload))))
      by (rewrite size_of_app, size_of_le32; reflexivity).
    rewrite load_bytes_app. reflexivity.
Qed.

Lemma fsd_string_from_roundtrip_witness :
  fsd_string_from (prefixed_string [Byte.xff] [Byte.x61; Byte.x62; Byte.x63] [Byte.x00])
                  1 =
    Returns (Plain (returns (PyString [Byte.x61; Byte.x62; Byte.x63]))).
Proof.
  apply (fsd_string_from_roundtrip [Byte.xff] [Byte.x61; Byte.x62; Byte.x63] [Byte.x00]).
  vm_compute. reflexivity.
Defined.



(** ** Initialize, continued *)



(** X6. The three readers of a length prefix agree on it.  When
    [Initialize] succeeds at a non-negative offset, the table keeps the
    buffer and the length it stores is the integer that [_int32_from]
    returns at that offset.  When that length is not negative,
    [_string_from] at that offset succeeds too and returns the
    [km_length] bytes that start at [km_data], all of them inside the
    buffer: [Initialize] checks its count as a number of bytes, so these
    are [km_length] bytes, not the [km_length] records of 12 bytes that
    lookups and iteration address.  When the length is negative,
    [_string_from] raises [SystemError]. *)
Theorem keymap_initialize_agrees_with_readers
  (self t : PyKeyMapObject) (pydata : list byte) (offset : Z) :
  0 <= offset < 2 ^ 31 ->
  size_of pydata < 2 ^ 31 ->
  keymap_initialize self pydata offset = Returns (t, returns PyNone) ->
  km_ref t = Some pydata /\
  fsd_int32_from pydata offset = Returns (returns (PyInteger (km_length t))) /\
  (0 <= km_length t ->
   fsd_string_from pydata offset =
     Returns (Plain (returns (PyString (slice pydata (km_data t) (km_length t))))) /\
   km_data t + km_length t <= size_of pydata) /\
  (km_length t < 0 ->
   fsd_string_from pydata offset =
     Returns (SystemError "Negative size passed to PyString_FromStringAndSize")).
Proof.
  intros Hoff Hsize Init.
  destruct (Z_lt_dec (size_of pydata - offset) 4) as [Short | Room].
  - rewrite keymap_initialize_no_room in Init by lia. discriminate Init.
  - destruct (load_uint32_in_bounds pydata offset ltac:(lia)) as (u & _ & L & _).
    rewrite keymap_initialize_read, L in Init by lia. cbn [bind] in Init.
    destruct (size_of pydata - (offset + 4) <? to_int32 u) eqn:G;
      [discriminate Init |].
    to_prop. injection Init as <-. cbn [km_ref km_data km_length].
    split; [reflexivity |]. split; [| split].
    + unfold fsd_int32_from. fold (size_of pydata).
      replace ((offset >=? 0) && (offset <=? size_of pydata - 4)) with true
        by (symmetry; apply andb_true_intro; rewrite Z.geb_leb;
            split; apply Z.leb_le; lia).
      rewrite L. reflexivity.
    + intros P0. split; [| lia].
      rewrite fsd_string_from_read, L by lia. cbn [bind].
      replace (to_int32 u <=? size_of pydata - offset - 4) with true
        by (symmetry; apply Z.leb_le; lia).
      apply PyString_FromStringAndSize_inside; lia.
    + intros Neg.
      rewrite fsd_string_from_read, L by lia. cbn [bind].
      replace (to_int32 u <=? size_of pydata - offset - 4) with true
        by (symmetry; apply Z.leb_le; lia).
      unfold PyString_FromStringAndSize.
      replace (to_int32 u <? 0) with true by (symmetry; apply Z.ltb_lt; lia).
      reflexivity.
Qed.

Lemma keymap_initialize_agrees_with_readers_witness :
  fsd_int32_from (keymap_string [] scenario []) 0 = Returns (returns (PyInteger 2)).
Proof.
  apply (keymap_initialize_agrees_with_readers keymap_new (table_of [] scenario [])
           (keymap_string [] scenario []) 0).
  - lia.
  - vm_compute. reflexivity.
  - vm_compute. reflexivity.
Defined.

Lemma exhaust_nothing self mode :
  km_length self <= 0 -> exhaust (_iter self mode) = Returns ([], None).
Proof.
  intros H. rewrite exhaust_unfolding, keymapiter_next_exhausted; [reflexivity |].
  right. cbn. exact H.
Qed.

(** X7. A negative count is accepted.  When at least 4 bytes are left at
    a non-negative offset and they encode a negative [N], [Initialize]
    succeeds; the table then reports the negative length [N], and a full
    iteration over it, in any mode, yields nothing and ends without an
    error. *)
Theorem negative_count_accepted
  (self : PyKeyMapObject) (pydata : list byte) (offset N : Z) :
  0 <= offset <= size_of pydata - 4 ->
  load_int32 pydata offset = Returns N ->
  N < 0 ->
  exists t,
    keymap_initialize self pydata offset = Returns (t, returns PyNone) /\
    keymap_obj_length t = N /\
    forall mode, exhaust (_iter t mode) = Returns ([], None).
Proof.
  intros Hoff L Neg.
  exists {| km_ref := Some pydata; km_data := offset + 4; km_length := N |}.
  split; [| split].
  - rewrite keymap_initialize_read, L by lia. cbn [bind].
    replace (size_of pydata - (offset + 4) <? N) with false
      by (symmetry; apply Z.ltb_ge; lia).
    reflexivity.
  - reflexivity.
  - intros mode. apply exhaust_nothing. cbn. lia.
Qed.

Lemma negative_count_accepted_witness :
  exists t,
    keymap_initialize keymap_new (le32 (-3) ++ le32 9) 0 = Returns (t, returns PyNone) /\
    keymap_obj_length t = -3 /\
    forall mode, exhaust (_iter t mode) = Returns ([], None).
Proof.
  apply (negative_count_accepted keymap_new (le32 (-3) ++ le32 9) 0 (-3)).
  - vm_compute. split; congruence.
  - vm_compute. reflexivity.
  - lia.
Defined.

(** ** The iterator, continued *)

Lemma keymapiter_next_step it :
  0 <= kmi_index it < km_length (kmi_keymap it) ->
  (exists r, keymapiter_next it = Returns (advance it, r) /\ r <> exhausted) \/
  (exists p, keymapiter_next it = OutOfBounds p).
Proof.
  intros H. destruct it as [keymap mode index]. cbn [kmi_keymap kmi_mode kmi_index] in *.
  unfold keymapiter_next, advance. cbn [kmi_keymap kmi_mode kmi_index].
  replace ((index <? 0) || _) with false
    by (symmetry; apply orb_false_iff; rewrite Z.geb_leb, Z.ltb_ge, Z.leb_gt; lia).
  cbv zeta. cbn [kmi_mode].
  destruct mode as [| p | p];
    [| destruct p as [[p | p |] | [[p | p |] | [p | p |] |] |] |];
    repeat match goal with
           | |- context [bind ?m _] => destruct m; cbn [bind]
           end;
    first [ right; eexists; reflexivity
          | left; eexists; split; [reflexivity | discriminate] ].
Qed.

(** X8. [Next()] keeps the iterator's table and mode, and moves the
    cursor by one exactly when it does not signal exhaustion: a call
    that signals exhaustion leaves the iterator as it was, so every
    later call signals exhaustion again; any other returning call (a
    yielded item or the invalid-mode error) happens with the cursor
    inside the table and advances it by one. *)
Theorem keymapiter_next_invariant (it it' : PyKeyMapIteratorObject) (r : reply) :
  keymapiter_next it = Returns (it', r) ->
  kmi_keymap it' = kmi_keymap it /\
  kmi_mode it' = kmi_mode it /\
  ((r = exhausted /\ it' = it /\
    (kmi_index it < 0 \/ km_length (kmi_keymap it) <= kmi_index it) /\
    keymapiter_next it' = Returns (it', exhausted)) \/
   (r <> exhausted /\ kmi_index it' = kmi_index it + 1 /\
    0 <= kmi_index it < km_length (kmi_keymap it))).
Proof.
  intros E.
  destruct (Z_lt_dec (kmi_index it) 0) as [Neg | Pos];
    [| destruct (Z_le_dec (km_length (kmi_keymap it)) (kmi_index it)) as [End | In_]].
  - pose proof (keymapiter_next_exhausted it (or_introl Neg)) as X.
    rewrite X in E. injection E as <- <-.
    split; [reflexivity |]. split; [reflexivity |]. left. auto.
  - pose proof (keymapiter_next_exhausted it (or_intror End)) as X.
    rewrite X in E. injection E as <- <-.
    split; [reflexivity |]. split; [reflexivity |]. left. auto.
  - destruct (keymapiter_next_step it ltac:(lia)) as [(r' & X & NE) | (p & X)];
      rewrite X in E; [| discriminate E].
    injection E as <- <-.
    split; [reflexivity |]. split; [reflexivity |]. right.
    split; [exact NE |]. split; [reflexivity | lia].
Qed.

Lemma keymapiter_next_invariant_witness :
  kmi_index (advance (keymap_iterkeys (table_of [] scenario []))) =
    kmi_index (keymap_iterkeys (table_of [] scenario [])) + 1.
Proof.
  destruct (keymapiter_next_invariant
              (keymap_iterkeys (table_of [] scenario []))
              (advance (keymap_iterkeys (table_of [] scenario [])))
              (returns (PyInteger 1)))
    as (_ & _ & [(X & _) | (_ & I & _)]).
  - vm_compute. reflexivity.
  - discriminate X.
  - exact I.
Defined.

(** X9. A full iteration with an unrecognized mode yields nothing: over
    a table whose length is positive it ends at the first call with the
    invalid-mode error, and over a table whose length is zero or
    negative it ends without any error. *)
Theorem exhaust_invalid_mode (self : PyKeyMapObject) (mode : Z) :
  ~ (0 <= mode <= 4) ->
  (0 < km_length self ->
   exhaust (_iter self mode) =
     Returns ([], Some (PyExc_RuntimeError (msg_invalid_mode mode)))) /\
  (km_length self <= 0 ->
   exhaust (_iter self mode) = Returns ([], None)).
Proof.
  intros Bad. split.
  - intros Pos. rewrite exhaust_unfolding.
    rewrite keymapiter_next_invalid; [reflexivity | cbn; lia | exact Bad].
  - apply exhaust_nothing.
Qed.

Lemma exhaust_invalid_mode_witness :
  exhaust (_iter (table_of [] scenario []) (-1)) =
    Returns ([], Some (PyExc_RuntimeError "Invalid mode for KeyMapIterator: -1")) /\
  exhaust (_iter keymap_new 5) = Returns ([], None).
Proof.
  split.
  - apply (proj1 (exhaust_invalid_mode (table_of [] scenario []) (-1) ltac:(lia))).
    vm_compute. reflexivity.
  - apply (proj2 (exhaust_invalid_mode keymap_new 5 ltac:(lia))).
    vm_compute. congruence.
Defined.

(** X10. The iterator is single-pass.  Over a table initialized from a
    well-formed string, an iterator whose cursor has passed the records
    [es1] yields the projections of the remaining records [es2], in
    order, and nothing else; so a full iteration from a fresh iterator
    is what the first steps yielded followed by what the rest yields. *)
Theorem exhaust_resumes
  (pre post : list byte) (es1 es2 : list keymap_entry) (mode : Z) :
  0 <= mode <= 4 ->
  Forall entry_ok (es1 ++ es2) ->
  exhaust {| kmi_keymap := table_of pre (es1 ++ es2) post;
             kmi_mode := mode;
             kmi_index := Z.of_nat (List.length es1) |} =
    Returns (map (projection mode) es2, None) /\
  exhaust (_iter (table_of pre (es1 ++ es2) post) mode) =
    Returns (map (projection mode) es1 ++ map (projection mode) es2, None).
Proof.
  intros M Ok. split.
  - apply exhaust_table_from; assumption.
  - rewrite <- map_app. apply exhaust_table; assumption.
Qed.

Lemma exhaust_resumes_witness :
  exhaust {| kmi_keymap := table_of [] scenario []; kmi_mode := 4; kmi_index := 1 |} =
    Returns ([PyTuple [PyInteger 5; PyInteger 30]], None).
Proof.
  apply (proj1 (exhaust_resumes [] [] [ {| key := 1; value1 := 10; value2 := 20 |} ]
                  [ {| key := 5; value1 := 30; value2 := 40 |} ] 4
                  ltac:(lia) scenario_ok)).
Defined.

(** ** The comparison function, continued *)

Lemma to_int_wrapped d :
  - 2 ^ 32 < d < 2 ^ 32 ->
  (- 2 ^ 31 <= d < 2 ^ 31 -> to_int (to_uint32 d) = d) /\
  (2 ^ 31 <= d -> to_int (to_uint32 d) = d - 2 ^ 32) /\
  (d < - 2 ^ 31 -> to_int (to_uint32 d) = d + 2 ^ 32).
Proof.
  intros R.
  assert (E : to_int (to_uint32 d) = to_int32 d).
  { unfold to_int, to_uint32, to_unsigned. fold to_int32. apply to_int32_mod. }
  rewrite E. unfold to_int32, to_signed.
  change (2 ^ (32 - 1)) with 2147483648. change (2 ^ 32) with 4294967296 in *.
  change (2 ^ 31) with 2147483648.
  pose proof (Z.mod_pos_bound (d + 2147483648) 4294967296 eq_refl) as B.
  pose proof (Z.div_mod (d + 2147483648) 4294967296 ltac:(lia)) as D.
  repeat split; intros; lia.
Qed.

(** X11. [_keycmp] answers 0 exactly for equal keys, but it orders two
    different keys correctly only when they are less than 2^31 apart:
    there its answer is the true difference, while for a key that is
    2^31 or more above the record's key the answer is negative, and for
    one that is more than 2^31 below it the answer is positive. *)
Theorem keycmp_sign
  (pre post : list byte) (es : list keymap_entry) (i : nat) (e : keymap_entry) (k : Z) :
  Forall entry_ok es ->
  nth_error es i = Some e ->
  0 <= k < 2 ^ 32 ->
  exists c,
    _keycmp (table_of pre es post) k (entry_at (table_of pre es post) (Z.of_nat i)) =
      Returns c /\
    (c = 0 <-> k = key e) /\
    (- 2 ^ 31 <= k - key e < 2 ^ 31 -> c = k - key e) /\
    (2 ^ 31 <= k - key e -> c < 0) /\
    (k - key e < - 2 ^ 31 -> 0 < c).
Proof.
  intros Ok Ni Hk.
  pose proof (Forall_nth_error _ _ _ _ Ok Ni) as (He & _).
  exists (to_int (to_uint32 (k - key e))).
  split; [apply _keycmp_table; [exact Ni | exact (Forall_nth_error _ _ _ _ Ok Ni)] |].
  destruct (to_int_wrapped (k - key e) ltac:(lia)) as (Mid & High & Low).
  split; [split |].
  - apply to_int_zero; assumption.
  - intros ->. rewrite Z.sub_diag. reflexivity.
  - split; [exact Mid |]. split.
    + intros H. rewrite (High H). lia.
    + intros H. rewrite (Low H). lia.
Qed.

Lemma keycmp_sign_witness :
  exists c,
    _keycmp (table_of [] wide []) 0 (entry_at (table_of [] wide []) (Z.of_nat 1)) =
      Returns c /\
    (0 - 2147483649 < - 2 ^ 31 -> 0 < c).
Proof.
  destruct (keycmp_sign [] [] wide 1 {| key := 2147483649; value1 := 30; value2 := 40 |} 0)
    as (c & E & _ & _ & _ & Low).
  - repeat constructor; cbn; lia.
  - reflexivity.
  - lia.
  - exists c. split; [exact E | exact Low].
Defined.

(** ** Lookup, continued *)

(** Two searches that see the same comparisons at the same indices take
    the same path. *)
Lemma bsearch_loop_same_path compar1 compar2 base1 base2 size n :
  forall l u,
    (Z.to_nat (u - l) <= n)%nat ->
    (forall idx, l <= idx < u ->
                 compar1 (base1 + idx * size) = compar2 (base2 + idx * size)) ->
    match bsearch_loop compar2 base2 size l u with
    | Returns None => bsearch_loop compar1 base1 size l u = Returns None
    | Returns (Some p2) =>
        exists idx, l <= idx < u /\ p2 = base2 + idx * size /\
                    bsearch_loop compar1 base1 size l u = Returns (Some (base1 + idx * size))
    | OutOfBounds q => bsearch_loop compar1 base1 size l u = OutOfBounds q
    end.
Proof.
  induction n as [| n IH]; intros l u Fuel Same;
    rewrite (bsearch_loop_unfolding compar2), (bsearch_loop_unfolding compar1);
    destruct (l <? u) eqn:G; try reflexivity; to_prop; [lia |].
  cbv zeta. pose proof (midpoint_between l u G) as Mid.
  rewrite (Same _ Mid).
  destruct (compar2 (base2 + (l + u) / 2 * size)) as [c |]; cbn [bind]; [| reflexivity].
  destruct (c <? 0); [| destruct (c >? 0)].
  - specialize (IH l ((l + u) / 2) ltac:(lia) ltac:(intros; apply Same; lia)).
    destruct (bsearch_loop compar2 base2 size l ((l + u) / 2)) as [[p2 |] | q];
      try exact IH.
    destruct IH as (idx & R & E & S). exists idx. repeat split; try lia; assumption.
  - specialize (IH ((l + u) / 2 + 1) u ltac:(lia) ltac:(intros; apply Same; lia)).
    destruct (bsearch_loop compar2 base2 size ((l + u) / 2 + 1) u) as [[p2 |] | q];
      try exact IH.
    destruct IH as (idx & R & E & S). exists idx. repeat split; try lia; assumption.
  - exists ((l + u) / 2). repeat split; lia.
Qed.

Section LookupInTableMore.

Variable P : platform.
Variables (pre post : list byte) (es : list keymap_entry).
Hypothesis size_bit : 31 <= SIZE_BIT P.
Hypothesis es_small : Z.of_nat (List.length es) < 2 ^ 31.
Hypothesis es_ok : Forall entry_ok es.

(** What a lookup of an integer does in a table initialized from a
    well-formed string: it misses, or it hits a record that carries the
    key and returns the pair of that record. *)
Lemma get_cases z raise :
  (search P (table_of pre es post) (ckey P z) = Returns None /\
   _internal_get P (table_of pre es post) (PyInteger z) raise =
     if raise then Returns (raises (PyExc_KeyError (fmt_d (to_int (ckey P z)))))
     else Returns {| ret := Some PyNone; err := snd (PyInt_AsLong P z) |}) \/
  (exists i e,
      nth_error es i = Some e /\ key e = ckey P z /\
      search P (table_of pre es post) (ckey P z) =
        Returns (Some (entry_at (table_of pre es post) (Z.of_nat i))) /\
      _internal_get P (table_of pre es post) (PyInteger z) raise =
        Returns {| ret := Some (PyTuple [PyInteger (value1 e); PyInteger (value2 e)]);
                   err := snd (PyInt_AsLong P z) |}).
Proof.
  rewrite _internal_get_integer.
  rewrite (search_table P pre post es size_bit es_small).
  destruct (search_table_returns pre post es es_ok (ckey P z) 0
              (Z.of_nat (List.length es)) (Z.le_refl 0) (Z.le_refl _)) as ([p |] & S);
    rewrite S; cbn [bind].
  - right.
    destruct (search_table_hit pre post es es_ok (ckey P z) 0 _ p
                (to_uint32_range _) (Z.le_refl 0) (Z.le_refl _) S)
      as (i & e & Ni & K & ->).
    exists i, e. split; [exact Ni |]. split; [exact K |]. split; [reflexivity |].
    destruct (load_entry_table pre es post i e Ni (Forall_nth_error _ _ _ _ es_ok Ni))
      as (_ & E1 & E2).
    unfold entry_at in E1, E2. rewrite E1, E2. reflexivity.
  - left. split; reflexivity.
Qed.

End LookupInTableMore.



(** X13. A key in 0 .. 2^32 - 1 that fits a C long and that no record
    carries is never found, whatever the order of the records: the soft
    lookup returns [None] without an error, and the strict lookup raises
    [KeyError] whose text is the key read as a signed 32-bit integer,
    that is, the key itself below 2^31 and the key minus 2^32 from 2^31
    on. *)
Theorem get_absent_key
  (P : platform) (pre post : list byte) (es : list keymap_entry) (z : Z) :
  31 <= SIZE_BIT P ->
  Z.of_nat (List.length es) < 2 ^ 31 ->
  Forall entry_ok es ->
  0 <= z < 2 ^ 32 ->
  fits_signed (LONG_BIT P) z = true ->
  ~ In z (keys es) ->
  keymap_get P (table_of pre es post) (PyInteger z) = Returns (returns PyNone) /\
  keymap_mp_subscript P (table_of pre es post) (PyInteger z) =
    Returns (raises (PyExc_KeyError (fmt_d (as_signed z)))).
Proof.
  intros Size Small Ok R Fits Absent.
  rewrite <- (as_signed_to_int32 z R).
  exact (get_absent P pre post es Size Small Ok z R Fits Absent).
Qed.

Lemma get_absent_key_witness :
  keymap_get LP64 (table_of [] scenario []) (PyInteger 3) = Returns (returns PyNone) /\
  keymap_mp_subscript LP64 (table_of [] scenario []) (PyInteger 3) =
    Returns (raises (PyExc_KeyError "3")).
Proof.
  apply (get_absent_key LP64 [] [] scenario 3).
  - vm_compute. congruence.
  - vm_compute. reflexivity.
  - exact scenario_ok.
  - lia.
  - reflexivity.
  - cbn. lia.
Defined.

(** X14. A lookup never invents a pair.  In a table initialized from a
    well-formed string, sorted or not, whenever a lookup of an integer
    returns a pair [(v1, v2)], the table holds a record with those two
    values whose key is the integer as the search saw it (its residue
    modulo 2^32 when it fits a C long). *)
Theorem get_returns_stored_pair
  (P : platform) (pre post : list byte) (es : list keymap_entry)
  (z v1 v2 : Z) (raise : bool) (r : reply) :
  31 <= SIZE_BIT P ->
  Z.of_nat (List.length es) < 2 ^ 31 ->
  Forall entry_ok es ->
  _internal_get P (table_of pre es post) (PyInteger z) raise = Returns r ->
  ret r = Some (PyTuple [PyInteger v1; PyInteger v2]) ->
  In {| key := ckey P z; value1 := v1; value2 := v2 |} es /\
  (fits_signed (LONG_BIT P) z = true -> ckey P z = z mod 2 ^ 32).
Proof.
  intros Size Small Ok E Pair. split.
  - destruct (get_cases P pre post es Size Small Ok z raise)
      as [(_ & Miss) | (i & e & Ni & K & _ & Hit)].
    + rewrite Miss in E. destruct raise; injection E as <-; discriminate Pair.
    + rewrite Hit in E. injection E as <-. cbn [ret] in Pair.
      injection Pair as <- <-. rewrite <- K.
      destruct e. eapply nth_error_In. exact Ni.
  - intros Fits. unfold ckey, PyInt_AsLong. rewrite Fits. reflexivity.
Qed.

Lemma get_returns_stored_pair_witness :
  In {| key := ckey LP64 4294967301; value1 := 30; value2 := 40 |} scenario /\
  (fits_signed (LONG_BIT LP64) 4294967301 = true ->
   ckey LP64 4294967301 = 4294967301 mod 2 ^ 32).
Proof.
  apply (get_returns_stored_pair LP64 [] [] scenario 4294967301 30 40 false
           (returns (PyTuple [PyInteger 30; PyInteger 40]))).
  - vm_compute. congruence.
  - vm_compute. reflexivity.
  - exact scenario_ok.
  - vm_compute. reflexivity.
  - reflexivity.
Defined.

(** X15. A lookup stays inside the buffer.  In a table initialized from
    a well-formed string, a lookup of any object, integer or not, in
    range or not, in either mode, returns or raises; it never loads from
    outside the string. *)
Theorem get_stays_inside
  (P : platform) (pre post : list byte) (es : list keymap_entry)
  (pykey : PyObject) (raise : bool) :
  31 <= SIZE_BIT P ->
  Z.of_nat (List.length es) < 2 ^ 31 ->
  Forall entry_ok es ->
  exists r, _internal_get P (table_of pre es post) pykey raise = Returns r.
Proof.
  intros Size Small Ok.
  destruct (is_integer pykey) eqn:I.
  - destruct pykey as [z | | |]; try discriminate I.
    destruct (get_cases P pre post es Size Small Ok z raise)
      as [(_ & Miss) | (i & e & _ & _ & _ & Hit)].
    + rewrite Miss. destruct raise; eexists; reflexivity.
    + rewrite Hit. eexists. reflexivity.
  - rewrite _internal_get_non_integer by exact I. eexists. reflexivity.
Qed.

Lemma get_stays_inside_witness :
  exists r, _internal_get ILP32 (table_of [] wide []) (PyInteger (-7)) true = Returns r.
Proof.
  apply (get_stays_inside ILP32 [] [] wide (PyInteger (-7)) true).
  - vm_compute. congruence.
  - vm_compute. reflexivity.
  - repeat constructor; cbn; lia.
Defined.



(** X17. A table that was never initialized behaves as an empty one and
    its null data pointer is never used: every lookup of an integer
    misses ([None] from the soft lookup, [KeyError] from the strict
    one), its length is 0, and a full iteration in any mode yields
    nothing. *)
Theorem uninitialized_table (P : platform) (z mode : Z) :
  keymap_get P keymap_new (PyInteger z) =
    Returns {| ret := Some PyNone; err := snd (PyInt_AsLong P z) |} /\
  answers (keymap_mp_subscript P keymap_new (PyInteger z))
          (KeyNotFound (to_int (ckey P z))) /\
  keymap_obj_length keymap_new = 0 /\
  exhaust (_iter keymap_new mode) = Returns ([], None).
Proof.
  assert (S : search P keymap_new (ckey P z) = Returns None).
  { unfold search, bsearch, to_unsigned. cbn [km_length keymap_new].
    rewrite Zmod_0_l.
    rewrite bsearch_loop_unfolding. reflexivity. }
  unfold keymap_get, keymap_mp_subscript. rewrite !_internal_get_integer, S. cbn [bind].
  split; [reflexivity |].
  split; [eexists; split; reflexivity |].
  split; [reflexivity |].
  apply exhaust_nothing. cbn. lia.
Qed.

(** X18. A table is determined by its records.  The bytes before the
    count prefix and after the last record, and with them the offset at
    which the table was initialized, do not matter: two tables
    initialized from well-formed strings of the same records answer
    every lookup alike and yield the same items in every mode. *)
Theorem lookup_ignores_surroundings
  (P : platform) (pre post pre' post' : list byte) (es : list keymap_entry)
  (pykey : PyObject) (raise : bool) :
  31 <= SIZE_BIT P ->
  Z.of_nat (List.length es) < 2 ^ 31 ->
  Forall entry_ok es ->
  _internal_get P (table_of pre es post) pykey raise =
    _internal_get P (table_of pre' es post') pykey raise /\
  forall mode, 0 <= mode <= 4 ->
    exhaust (_iter (table_of pre es post) mode) =
      exhaust (_iter (table_of pre' es post') mode).
Proof.
  intros Size Small Ok. split.
  - destruct (is_integer pykey) eqn:I;
      [| rewrite !_internal_get_non_integer by exact I; reflexivity].
    destruct pykey as [z | | |]; try discriminate I.
    rewrite !_internal_get_integer.
    rewrite !(search_table P _ _ es Size Small).
    pose proof (bsearch_loop_same_path
                  (_keycmp (table_of pre es post) (ckey P z))
                  (_keycmp (table_of pre' es post') (ckey P z))
                  (km_data (table_of pre es post)) (km_data (table_of pre' es post'))
                  12 (Z.to_nat (Z.of_nat (List.length es) - 0))
                  0 (Z.of_nat (List.length es)) (Nat.le_refl _)) as Path.
    assert (Same : forall idx, 0 <= idx < Z.of_nat (List.length es) ->
              _keycmp (table_of pre es post) (ckey P z)
                      (km_data (table_of pre es post) + idx * 12) =
              _keycmp (table_of pre' es post') (ckey P z)
                      (km_data (table_of pre' es post') + idx * 12)).
    { intros idx H.
      destruct (probe_table pre post es Ok (ckey P z) idx H) as (e & N & C).
      destruct (probe_table pre' post' es Ok (ckey P z) idx H) as (e' & N' & C').
      rewrite C, C'. congruence. }
    specialize (Path Same).
    destruct (bsearch_loop (_keycmp (table_of pre' es post') (ckey P z))
                (km_data (table_of pre' es post')) 12 0 (Z.of_nat (List.length es)))
      as [[p2 |] | q].
    + destruct Path as (idx & R & -> & ->). cbn [bind].
      destruct (nth_error_Z es idx R) as (e & N).
      pose proof (Forall_nth_error _ _ _ _ Ok N) as Oke.
      destruct (load_entry_table pre es post _ e N Oke) as (_ & E1 & E2).
      destruct (load_entry_table pre' es post' _ e N Oke) as (_ & E1' & E2').
      unfold entry_at in E1, E2, E1', E2'. rewrite Z2Nat.id in E1, E2, E1', E2' by lia.
      rewrite E1, E2, E1', E2'. reflexivity.
    + rewrite Path. reflexivity.
    + rewrite Path. reflexivity.
  - intros mode M. rewrite !exhaust_table by assumption. reflexivity.
Qed.

Lemma lookup_ignores_surroundings_witness :
  _internal_get LP64 (table_of [Byte.x07] scenario [Byte.x09]) (PyInteger 5) false =
    _internal_get LP64 (table_of [] scenario []) (PyInteger 5) false.
Proof.
  apply (lookup_ignores_surroundings LP64 [Byte.x07] [Byte.x09] [] [] scenario
           (PyInteger 5) false).
  - vm_compute. congruence.
  - vm_compute. reflexivity.
  - exact scenario_ok.
Defined.

(** X19. The soft lookup and the strict lookup differ only where the
    search misses.  For every table and every object looked up, either
    the two give the same outcome, or the object is an integer that the
    search misses, and then the soft lookup returns the absent sentinel
    and the strict one raises [KeyError]; so one of them returns a pair
    [(value1, value2)] exactly when the other returns the identical
    pair. *)
Theorem get_and_subscript_differ_only_on_miss
  (P : platform) (self : PyKeyMapObject) (pykey : PyObject) :
  (keymap_get P self pykey = keymap_mp_subscript P self pykey \/
   exists z pending,
     pykey = PyInteger z /\
     search P self (ckey P z) = Returns None /\
     keymap_get P self pykey = Returns {| ret := Some PyNone; err := pending |} /\
     answers (keymap_mp_subscript P self pykey) (KeyNotFound (to_int (ckey P z)))) /\
  (forall v1 v2 pending,
      keymap_get P self pykey =
        Returns {| ret := Some (PyTuple [PyInteger v1; PyInteger v2]); err := pending |} <->
      keymap_mp_subscript P self pykey =
        Returns {| ret := Some (PyTuple [PyInteger v1; PyInteger v2]); err := pending |}).
Proof.
  split.
  - unfold keymap_get, keymap_mp_subscript.
    destruct (is_integer pykey) eqn:I.
    + destruct pykey as [z | | |]; try discriminate I.
      rewrite !_internal_get_integer.
      destruct (search P self (ckey P z)) as [[entry |] | p] eqn:S; cbn [bind].
      * left; reflexivity.
      * right. exists z, (snd (PyInt_AsLong P z)).
        split; [reflexivity |]. split; [exact S |]. split; [reflexivity |].
        eexists. split; reflexivity.
      * left; reflexivity.
    + rewrite !_internal_get_non_integer by exact I. left; reflexivity.
  - intros v1 v2 pending. unfold keymap_get, keymap_mp_subscript.
    destruct (is_integer pykey) eqn:I.
    + destruct pykey as [z | | |]; try discriminate I.
      rewrite !_internal_get_integer.
      destruct (search P self (ckey P z)) as [[entry |] | p]; cbn [bind];
        try reflexivity.
      split; intros E; discriminate E.
    + rewrite !_internal_get_non_integer by exact I. reflexivity.
Qed.

Lemma get_and_subscript_differ_only_on_miss_witness :
  keymap_mp_subscript LP64 (table_of [] scenario []) (PyInteger 5) =
    Returns (returns (PyTuple [PyInteger 30; PyInteger 40])).
Proof.
  apply (proj1 (proj2 (get_and_subscript_differ_only_on_miss LP64 (table_of [] scenario [])
                         (PyInteger 5)) 30 40 None)).
  vm_compute. reflexivity.
Defined.
